(** * levanter.models.mistral: configuration record, model assembly and
      checkpoint key remapping

    A shallow embedding of [src/levanter/models/mistral.py].  Python [int]
    is [Z], [float] is a binary64 [PrimFloat.float], [str] is [string], a
    [dict] keyed by strings is a [gmap string _], and a raised exception is
    the [Raise] branch of [result]. *)

From Stdlib Require Import ZArith Lia Floats.
From stdpp Require Import gmap strings list fin_maps.

Local Open Scope string_scope.
Local Open Scope list_scope.
Local Open Scope Z_scope.

(** ** Exceptions and results *)

Inductive exn : Type :=
| TypeError (msg : string)
| ZeroDivisionError
| KeyError (key : string)
| ValueError (msg : string)
| AssertionError (msg : string).

Inductive result (A : Type) : Type :=
| Ok (a : A)
| Raise (e : exn).
Arguments Ok {A} a.
Arguments Raise {A} e.

Definition bind {A B : Type} (r : result A) (k : A -> result B) : result B :=
  match r with
  | Ok a => k a
  | Raise e => Raise e
  end.

(** ** Named axes (haliax [Axis]) *)

(** Modelled from the spec: haliax's [Axis] is not in the source tree.  The
    glossary describes a named axis as a tensor dimension identified by a
    symbolic name; the source builds one from a name and a size, and uses
    [alias] (a new name, same size) and [resize] (same name, a new size). *)
Record Axis : Type := { name : string; size : Z }.

#[global] Instance Axis_eq_dec : EqDecision Axis.
Proof. solve_decision. Defined.


Definition resize (a : Axis) (new_size : Z) : Axis :=
  {| name := name a; size := new_size |}.

(** ** Values of keyword arguments *)

Inductive pyvalue : Type :=
| PyNone
| PyBool (b : bool)
| PyInt (z : Z)
| PyFloat (f : float)
| PyStr (s : string).

(** ** The external configuration object *)

(** Modelled from the spec: [transformers.MistralConfig] is not in the
    source tree.  Section 6 of the spec gives its fixed field set (position
    count, hidden size, intermediate size, layer count, head counts,
    activation name, initializer range, normalization epsilon,
    sliding-window size, vocabulary size); remaining keyword arguments are
    kept as given in [hf_kwargs]. *)
Record HfMistralConfig : Type := {
  hf_vocab_size : Z;
  max_position_embeddings : Z;
  hidden_size : Z;
  intermediate_size : Z;
  num_hidden_layers : Z;
  num_attention_heads : Z;
  num_key_value_heads : Z;
  hidden_act : string;
  hf_initializer_range : float;
  rms_norm_eps : float;
  hf_sliding_window : Z;
  hf_kwargs : gmap string pyvalue
}.

(** ** [MistralConfig] *)

Record MistralConfig : Type := {
  seq_len : Z;
  hidden_dim : Z;
  intermediate_dim : Z;
  num_layers : Z;
  num_heads : Z;
  num_kv_heads : Z;
  activation_function : string;
  initializer_range : float;
  layer_norm_epsilon : float;
  sliding_window : Z;
  upcast_attn : bool;
  use_flash_attention : bool;
  flash_attention_block_size : option Z;
  gradient_checkpointing : bool;
  gradient_checkpointing_block_size : Z;
  use_bias : bool;
  rope_scaling : option (gmap string pyvalue)
}.

(** The dataclass defaults (lines 51-71 of the source). *)
Definition default_config : MistralConfig := {|
  seq_len := 8192;
  hidden_dim := 4096;
  intermediate_dim := 14336;
  num_layers := 32;
  num_heads := 32;
  num_kv_heads := 8;
  activation_function := "silu";
  initializer_range := 0x1.47ae147ae147bp-6%float;
  layer_norm_epsilon := 0x1.0c6f7a0b5ed8dp-20%float;
  sliding_window := 4096;
  upcast_attn := false;
  use_flash_attention := false;
  flash_attention_block_size := None;
  gradient_checkpointing := true;
  gradient_checkpointing_block_size := 5;
  use_bias := false;
  rope_scaling := None
|}.

Definition Embed (self : MistralConfig) : Axis :=
  {| name := "embed"; size := hidden_dim self |}.

Definition floordiv (a b : Z) : result Z :=
  if decide (b = 0) then Raise ZeroDivisionError else Ok (a / b).

Definition HeadSize (self : MistralConfig) : result Axis :=
  bind (floordiv (hidden_dim self) (num_heads self))
       (fun q => Ok {| name := "head_size"; size := q |}).

(** Modelled from the spec: [LlamaConfig.__post_init__], which the
    dataclass inherits and its constructor runs, is not in the source tree.
    Section 3 of the spec: the key/value head count must evenly divide the
    head count; the docstring of [num_kv_heads] (lines 44-46) says the
    same.  Python's [%] takes the sign of the divisor, as [Z.modulo] does,
    and raises [ZeroDivisionError] on a zero divisor. *)
Definition LlamaConfig_post_init (self : MistralConfig) : result unit :=
  if decide (num_kv_heads self = 0) then Raise ZeroDivisionError
  else if decide (num_heads self mod num_kv_heads self = 0) then Ok tt
  else Raise (AssertionError "num_heads not divisible by num_kv_heads").

(** [from_hf_config] (lines 93-106): the fields not named in the call keep
    their dataclass defaults. *)
Definition from_hf_config (hf_config : HfMistralConfig) : MistralConfig := {|
  seq_len := max_position_embeddings hf_config;
  hidden_dim := hidden_size hf_config;
  intermediate_dim := intermediate_size hf_config;
  num_layers := num_hidden_layers hf_config;
  num_heads := num_attention_heads hf_config;
  num_kv_heads := num_key_value_heads hf_config;
  activation_function := hidden_act hf_config;
  initializer_range := hf_initializer_range hf_config;
  layer_norm_epsilon := rms_norm_eps hf_config;
  sliding_window := hf_sliding_window hf_config;
  upcast_attn := upcast_attn default_config;
  use_flash_attention := use_flash_attention default_config;
  flash_attention_block_size := flash_attention_block_size default_config;
  gradient_checkpointing := gradient_checkpointing default_config;
  gradient_checkpointing_block_size :=
    gradient_checkpointing_block_size default_config;
  use_bias := use_bias default_config;
  rope_scaling := rope_scaling default_config
|}.

(** The keywords that [to_hf_config] passes by name, in call order. *)
Definition explicit_keywords : list string :=
  [ "max_position_embeddings"; "hidden_size"; "intermediate_size";
    "num_hidden_layers"; "num_attention_heads"; "num_key_value_heads";
    "hidden_act"; "initializer_range"; "rms_norm_eps"; "sliding_window";
    "vocab_size" ].

(** The first keyword given both by name and through [**config_overrides];
    Python refuses such a call with a [TypeError].  Of several such
    keywords Python names the first in the insertion order of the
    dictionary, which a [gmap] does not keep; this names the first in call
    order. *)
Definition duplicate_keyword (config_overrides : gmap string pyvalue)
  : option string :=
  head (filter (fun k => is_Some (config_overrides !! k)) explicit_keywords).

(** [to_hf_config] (lines 108-134). *)
Definition to_hf_config (self : MistralConfig) (vocab_size : Z)
    (config_overrides : option (gmap string pyvalue)) : result HfMistralConfig :=
  let config_overrides :=
    match config_overrides with
    | None => ∅
    | Some o => o
    end in
  match duplicate_keyword config_overrides with
  | Some k => Raise (TypeError k)
  | None =>
      Ok {| hf_vocab_size := vocab_size;
            max_position_embeddings := seq_len self;
            hidden_size := hidden_dim self;
            intermediate_size := intermediate_dim self;
            num_hidden_layers := num_layers self;
            num_attention_heads := num_heads self;
            num_key_value_heads := num_kv_heads self;
            hidden_act := activation_function self;
            hf_initializer_range := initializer_range self;
            rms_norm_eps := layer_norm_epsilon self;
            hf_sliding_window := sliding_window self;
            hf_kwargs := config_overrides |}
  end.

(** The shared field subset of the two schemas, as read off an external
    configuration. *)
Record shared_fields : Type := {
  sf_max_position : Z;
  sf_hidden_size : Z;
  sf_intermediate_size : Z;
  sf_layers : Z;
  sf_heads : Z;
  sf_kv_heads : Z;
  sf_activation : string;
  sf_initializer_range : float;
  sf_norm_eps : float;
  sf_sliding_window : Z
}.

Definition hf_shared (c : HfMistralConfig) : shared_fields := {|
  sf_max_position := max_position_embeddings c;
  sf_hidden_size := hidden_size c;
  sf_intermediate_size := intermediate_size c;
  sf_layers := num_hidden_layers c;
  sf_heads := num_attention_heads c;
  sf_kv_heads := num_key_value_heads c;
  sf_activation := hidden_act c;
  sf_initializer_range := hf_initializer_range c;
  sf_norm_eps := rms_norm_eps c;
  sf_sliding_window := hf_sliding_window c
|}.

Definition config_shared (c : MistralConfig) : shared_fields := {|
  sf_max_position := seq_len c;
  sf_hidden_size := hidden_dim c;
  sf_intermediate_size := intermediate_dim c;
  sf_layers := num_layers c;
  sf_heads := num_heads c;
  sf_kv_heads := num_kv_heads c;
  sf_activation := activation_function c;
  sf_initializer_range := initializer_range c;
  sf_norm_eps := layer_norm_epsilon c;
  sf_sliding_window := sliding_window c
|}.

(** ** Tensors *)

(** An array as a checkpoint holds it: a shape and the elements in
    row-major order. *)
Record ndarray : Type := { shape : list Z; data : list float }.

(** Modelled from the spec: haliax's [NamedArray] is not in the source
    tree: an array whose dimensions are named axes. *)
Record NamedArray : Type := { axes : list Axis; values : list float }.

Definition array (x : NamedArray) : ndarray :=
  {| shape := size <$> axes x; data := values x |}.

(** The external checkpoint representation: dotted string keys to arrays. *)
Abbreviation StateDict := (gmap string ndarray).

(** The number of elements of an array of the given shape. *)
Definition numel (sh : list Z) : nat :=
  foldr (fun s n => (Z.to_nat s * n)%nat) 1%nat sh.

Definition ndarray_wf (a : ndarray) : Prop :=
  length (data a) = numel (shape a).

Definition NamedArray_wf (x : NamedArray) : Prop := ndarray_wf (array x).

(** [transpose rows cols d]: [d] holds a [rows] x [cols] matrix in row-major
    order; the result holds its [cols] x [rows] transpose. *)
Definition transpose {A : Type} (rows cols : nat) (d : list A) : list A :=
  omap (fun k => d !! ((k mod rows) * cols + k / rows)%nat)
       (seq 0 (rows * cols)).

(** The axes of [axs] around the first one called [nm]. *)
Fixpoint split_at_name (nm : string) (axs : list Axis)
  : option (list Axis * Axis * list Axis) :=
  match axs with
  | [] => None
  | a :: rest =>
      if decide (name a = nm) then Some ([], a, rest)
      else match split_at_name nm rest with
           | Some (pre, b, post) => Some (a :: pre, b, post)
           | None => None
           end
  end.

(** ** Randomness and numeric kernels *)

(** Modelled from the spec: [jax.random] and the floating-point kernels of
    haliax are not in the source tree.  They are taken as parameters: a key
    type with [split], the k-th element drawn by an initialiser, and the
    k-th element that [resize_axis] appends to block [o] of a grown array. *)
Class JaxRandom : Type := {
  PRNGKey : Type;
  split : PRNGKey -> PRNGKey * PRNGKey;
  sample : PRNGKey -> nat -> float;
  resize_fill : option PRNGKey -> NamedArray -> nat -> nat -> float
}.

Section Haliax.
Context `{JaxRandom}.

(** [haliax.jax_utils.maybe_rng_split(key, 2)]. *)
Definition maybe_rng_split (key : option PRNGKey)
  : option PRNGKey * option PRNGKey :=
  match key with
  | None => (None, None)
  | Some k => let '(k1, k2) := split k in (Some k1, Some k2)
  end.

(** Modelled from the spec: [hax.tree_util.resize_axis] is not in the
    source tree.  Section 8 (4) of the spec: the dimension the axis
    names takes the new size and every other dimension is unchanged.  An
    array without that axis is returned as it is; a shrinking array keeps
    its leading elements along the axis, a growing one is padded. *)
Definition resize_axis (x : NamedArray) (old_axis : Axis) (new_size : Z)
    (key : option PRNGKey) : NamedArray :=
  match split_at_name (name old_axis) (axes x) with
  | None => x
  | Some (pre, current_axis, post) =>
      let outer := numel (size <$> pre) in
      let inner := numel (size <$> post) in
      let old := Z.to_nat (size current_axis) in
      let new := Z.to_nat new_size in
      {| axes := pre ++ resize current_axis new_size :: post;
         values :=
           flat_map
             (fun o =>
                take (Nat.min new old * inner)
                     (drop (o * (old * inner)) (values x))
                ++ (resize_fill key x o <$> seq 0 ((new - old) * inner)))
             (seq 0 outer) |}
  end.
End Haliax.

(** ** Linear layers (haliax [hnn.Linear]) *)

Module Linear.
(** Modelled from the spec: [hnn.Linear] is not in the source tree.  The
    source reads and replaces its [weight] and [Out], and builds it from
    [In], [Out], [use_bias] and [out_first]. *)
Record t : Type := {
  weight : NamedArray;
  bias : option NamedArray;
  In : Axis;
  Out : Axis
}.

Section init.
Context `{JaxRandom}.

(** [out_first] puts the output axis first in the weight. *)
Definition init (In Out : Axis) (key : PRNGKey) (use_bias out_first : bool)
  : t :=
  let weight_axes := if out_first then [Out; In] else [In; Out] in
  {| weight := {| axes := weight_axes;
                  values := sample key <$> seq 0 (numel (size <$> weight_axes)) |};
     bias := if use_bias
             then Some {| axes := [Out];
                          values := repeat 0%float (Z.to_nat (size Out)) |}
             else None;
     In := In;
     Out := Out |}.
End init.

(** The layer's weight is laid out over its two axes, in either order,
    and holds as many elements as they span; a bias runs over [Out]. *)
Definition out_first (l : t) : Prop := axes (weight l) = [Out l; In l].
Definition in_first (l : t) : Prop := axes (weight l) = [In l; Out l].

Definition wf (l : t) : Prop :=
  (out_first l \/ in_first l)
  /\ NamedArray_wf (weight l)
  /\ match bias l with
     | Some b => axes b = [Out l]
     | None => True
     end.

(** Two layers laid out alike: the same axes, for the weight and for the
    bias. *)
Definition same_layout (l1 l2 : t) : Prop :=
  axes (weight l1) = axes (weight l2)
  /\ In l1 = In l2
  /\ Out l1 = Out l2
  /\ (axes <$> bias l1) = (axes <$> bias l2).
End Linear.

(** ** Checkpoint helpers ([levanter.compat.torch_serialization]) *)

(** Modelled from the spec: [apply_prefix] is not in the source tree.
    Section 6 of the spec: nested sub-modules follow a prefix convention on
    dotted keys; a missing prefix or leaf leaves the other one alone. *)
Definition apply_prefix (prefix leaf : option string) : option string :=
  match prefix, leaf with
  | None, _ => leaf
  | Some p, None => Some p
  | Some p, Some l => Some (p +:+ "." +:+ l)
  end.

(** The dictionary key of parameter [leaf] under [prefix]. *)
Definition param_key (prefix : option string) (leaf : string) : string :=
  default leaf (apply_prefix prefix (Some leaf)).

Definition lookup_key (d : StateDict) (k : string) : result ndarray :=
  match d !! k with
  | Some a => Ok a
  | None => Raise (KeyError k)
  end.

Definition check_shape (expected : list Z) (a : ndarray) : result ndarray :=
  if decide (shape a = expected) then Ok a
  else Raise (ValueError "shape mismatch").

(** The two-dimensional array of a weight in the order asked for:
    [out_dims_first_in_dict = Some true] puts the output dimension first,
    [Some false] the input dimension, [None] leaves the layer's order. *)
Definition flatten_weight (layer : Linear.t) (out_dims_first_in_dict : option bool)
  : result ndarray :=
  let w := Linear.weight layer in
  let o := Linear.Out layer in
  let i := Linear.In layer in
  let no := Z.to_nat (size o) in
  let ni := Z.to_nat (size i) in
  if decide (axes w = [o; i]) then
    match out_dims_first_in_dict with
    | Some false => Ok {| shape := [size i; size o];
                          data := transpose no ni (values w) |}
    | _ => Ok (array w)
    end
  else if decide (axes w = [i; o]) then
    match out_dims_first_in_dict with
    | Some true => Ok {| shape := [size o; size i];
                         data := transpose ni no (values w) |}
    | _ => Ok (array w)
    end
  else Raise (ValueError "weight axes are not the layer's In and Out").

(** Modelled from the spec: [flatten_linear_layers] is not in the source
    tree.  Section 4 of the spec: the weight matrix of a linear layer is
    reshaped from the layer's in-memory layout to the checkpoint's (axis
    order of the input and output dimensions) and filed under the dotted
    key of the layer. *)
Definition flatten_linear_layers (prefix : option string) (layer : Linear.t)
    (out_dims_first_in_dict : option bool) : result StateDict :=
  bind (flatten_weight layer out_dims_first_in_dict) (fun w =>
  let ret_dict : StateDict := {[ param_key prefix "weight" := w ]} in
  match Linear.bias layer with
  | Some b => Ok (<[ param_key prefix "bias" := array b ]> ret_dict)
  | None => Ok ret_dict
  end).

(** The inverse reshape: from the checkpoint's order to the layer's. *)
Definition unflatten_weight (layer : Linear.t) (out_dims_first_in_dict : option bool)
    (a : ndarray) : result ndarray :=
  let w := Linear.weight layer in
  let o := Linear.Out layer in
  let i := Linear.In layer in
  let no := Z.to_nat (size o) in
  let ni := Z.to_nat (size i) in
  if decide (axes w = [o; i]) then
    match out_dims_first_in_dict with
    | Some false =>
        bind (check_shape [size i; size o] a) (fun a =>
        Ok {| shape := [size o; size i]; data := transpose ni no (data a) |})
    | _ => check_shape [size o; size i] a
    end
  else if decide (axes w = [i; o]) then
    match out_dims_first_in_dict with
    | Some true =>
        bind (check_shape [size o; size i] a) (fun a =>
        Ok {| shape := [size i; size o]; data := transpose no ni (data a) |})
    | _ => check_shape [size i; size o] a
    end
  else Raise (ValueError "weight axes are not the layer's In and Out").

(** Modelled from the spec: [unflatten_linear_layers] is not in the source
    tree.  It reads the layer's entries of [statedict] and returns them in
    the layer's own layout, under the same keys; [statedict] is only read. *)
Definition unflatten_linear_layers (prefix : option string) (statedict : StateDict)
    (layer : Linear.t) (out_dims_first_in_dict : option bool) : result StateDict :=
  bind (lookup_key statedict (param_key prefix "weight")) (fun a =>
  bind (unflatten_weight layer out_dims_first_in_dict a) (fun w =>
  let ret_dict : StateDict := {[ param_key prefix "weight" := w ]} in
  match Linear.bias layer with
  | Some b =>
      bind (lookup_key statedict (param_key prefix "bias")) (fun b' =>
      bind (check_shape (shape (array b)) b') (fun b' =>
      Ok (<[ param_key prefix "bias" := b' ]> ret_dict)))
  | None => Ok ret_dict
  end)).

(** Modelled from the spec: the serialization mixin's handling of a plain
    linear layer is not in the source tree.  Each parameter is filed under
    its field name below the layer's prefix, in the layer's own layout, and
    read back into the same axes; a missing key or a shape that disagrees
    with the declared axes is fatal (section 7 of the spec). *)
Definition Linear_update_state_dict (layer : Linear.t) (state_dict : StateDict)
    (prefix : option string) : StateDict :=
  let d := <[ param_key prefix "weight" := array (Linear.weight layer) ]> state_dict in
  match Linear.bias layer with
  | Some b => <[ param_key prefix "bias" := array b ]> d
  | None => d
  end.

(** The entries of a layer in its own layout. *)
Definition native_entries (layer : Linear.t) (prefix : option string) : StateDict :=
  Linear_update_state_dict layer ∅ prefix.

Definition read_into (x : NamedArray) (d : StateDict) (k : string)
  : result NamedArray :=
  bind (lookup_key d k) (fun a =>
  bind (check_shape (shape (array x)) a) (fun a =>
  Ok {| axes := axes x; values := data a |})).

Definition Linear_from_state_dict (layer : Linear.t) (state_dict : StateDict)
    (prefix : option string) : result Linear.t :=
  bind (read_into (Linear.weight layer) state_dict (param_key prefix "weight"))
    (fun w =>
  match Linear.bias layer with
  | Some b =>
      bind (read_into b state_dict (param_key prefix "bias")) (fun b' =>
      Ok {| Linear.weight := w; Linear.bias := Some b';
            Linear.In := Linear.In layer; Linear.Out := Linear.Out layer |})
  | None =>
      Ok {| Linear.weight := w; Linear.bias := None;
            Linear.In := Linear.In layer; Linear.Out := Linear.Out layer |}
  end).

(** ** The embedding table ([levanter.models.llama.LlamaEmbedding]) *)

Module LlamaEmbedding.
(** Modelled from the spec: [LlamaEmbedding] is not in the source tree.
    Section 3 of the spec: an embedding table; the source reads its
    [Vocab] axis and calls [init] and [resize_embeddings] on it. *)
Record t : Type := {
  Vocab : Axis;
  token_embeddings : NamedArray
}.

Section ops.
Context `{JaxRandom}.

Definition init (Vocab : Axis) (config : MistralConfig) (key : PRNGKey) : t :=
  let table_axes := [Vocab; Embed config] in
  {| Vocab := Vocab;
     token_embeddings :=
       {| axes := table_axes;
          values := sample key <$> seq 0 (numel (size <$> table_axes)) |} |}.

(** Section 8 (4) of the spec: the vocabulary-sized dimension becomes
    the new size and the other dimensions are left alone. *)
Definition resize_embeddings (self : t) (new_size : Z)
    (key : option PRNGKey) : t :=
  {| Vocab := resize (Vocab self) new_size;
     token_embeddings :=
       resize_axis (token_embeddings self) (Vocab self) new_size key |}.
End ops.
End LlamaEmbedding.

(** ** The transformer stack and the serialization of the components *)

(** Modelled from the spec: [LlamaTransformer] and the state-dict methods
    of [LlamaTransformer] and [LlamaEmbedding] are not in the source tree.
    The stack is an opaque building block with a configuration, a
    constructor that may fail (section 7 of the spec), and the two methods
    of the serialization contract; the embedding table has the same two
    methods. *)
Class LlamaComponents `{JaxRandom} : Type := {
  LlamaTransformer : Type;
  transformer_config : LlamaTransformer -> MistralConfig;
  transformer_init : MistralConfig -> PRNGKey -> result LlamaTransformer;
  transformer_from_state_dict :
    LlamaTransformer -> StateDict -> option string -> result LlamaTransformer;
  transformer_update_state_dict :
    LlamaTransformer -> StateDict -> option string -> result StateDict;
  embedding_from_state_dict :
    LlamaEmbedding.t -> StateDict -> option string -> result LlamaEmbedding.t;
  embedding_update_state_dict :
    LlamaEmbedding.t -> StateDict -> option string -> result StateDict
}.

(** ** Mutable dictionaries *)

(** A Python [dict] is an object: two names can refer to the same one, and
    [update] changes it for both.  The dictionaries alive are kept in a
    store and named by their position in it. *)
Definition loc : Type := nat.
Abbreviation heap := (list (gmap string ndarray)).

Definition M (A : Type) : Type := heap -> result A * heap.

#[global] Instance M_ret : MRet M := fun A a h => (Ok a, h).

#[global] Instance M_bind : MBind M := fun A B k m h =>
  match m h with
  | (Ok a, h') => k a h'
  | (Raise e, h') => (Raise e, h')
  end.

Definition lift {A : Type} (r : result A) : M A := fun h => (r, h).

(** A new object with the given entries, and the overwriting of an
    object's entries. *)
Definition alloc (d : StateDict) : M loc := fun h => (Ok (length h), h ++ [d]).
Definition store (l : loc) (d : StateDict) : M unit :=
  fun h => (Ok tt, <[ l := d ]> h).

(** [{}]: a new, empty dictionary. *)
Definition dict_new : M loc := alloc ∅.

(** The contents of a dictionary at this moment. *)
Definition dict_get (l : loc) : M StateDict := fun h =>
  match h !! l with
  | Some d => (Ok d, h)
  | None => (Raise (ValueError "no such object"), h)
  end.

(** [d.copy()]: a new dictionary with the same entries. *)
Definition dict_copy (l : loc) : M loc :=
  d ← dict_get l; alloc d.

(** [d.update(other)]: the entries of [other] are written into [d], over
    the entries [d] has under the same keys. *)
Definition dict_update (l : loc) (other : StateDict) : M unit :=
  d ← dict_get l; store l (other ∪ d).

(** A callee that is handed the dictionary and fills it in place. *)
Definition dict_modify (l : loc) (f : StateDict -> result StateDict) : M unit :=
  d ← dict_get l; d' ← lift (f d); store l d'.

(** ** [MistralLMHeadModel] *)

Section Model.
Context `{LlamaComponents}.

Record MistralLMHeadModel : Type := {
  transformer : LlamaTransformer;
  embeddings : LlamaEmbedding.t;
  lm_head : Linear.t
}.

Definition config (self : MistralLMHeadModel) : MistralConfig :=
  transformer_config (transformer self).

Definition Vocab (self : MistralLMHeadModel) : Axis :=
  LlamaEmbedding.Vocab (embeddings self).

Definition vocab_size (self : MistralLMHeadModel) : Z :=
  size (Vocab self).

(** [init] (lines 158-164). *)
Definition init (Vocab : Axis) (config : MistralConfig) (key : PRNGKey)
  : result MistralLMHeadModel :=
  let '(k_t, k_emb) := split key in
  bind (transformer_init config k_t) (fun transformer =>
  let embeddings := LlamaEmbedding.init Vocab config k_emb in
  let lm_head := Linear.init (Embed config) Vocab k_emb false true in
  Ok {| transformer := transformer;
        embeddings := embeddings;
        lm_head := lm_head |}).

(** [resize_vocab] (lines 187-194); [dataclasses.replace] builds a new
    record with the named fields changed. *)
Definition resize_vocab (self : MistralLMHeadModel) (new_size : Z)
    (key : option PRNGKey) : MistralLMHeadModel :=
  let new_Vocab := resize (Vocab self) new_size in
  let '(k1, k2) := maybe_rng_split key in
  let new_embeddings :=
    LlamaEmbedding.resize_embeddings (embeddings self) new_size k1 in
  let new_lm_matrix :=
    resize_axis (Linear.weight (lm_head self)) (Vocab self) new_size k2 in
  let new_lm_head :=
    {| Linear.weight := new_lm_matrix;
       Linear.bias := Linear.bias (lm_head self);
       Linear.In := Linear.In (lm_head self);
       Linear.Out := new_Vocab |} in
  {| transformer := transformer self;
     embeddings := new_embeddings;
     lm_head := new_lm_head |}.

(** [_state_dict_key_map] (lines 196-197). *)
Definition _state_dict_key_map : gmap string (option string) :=
  <[ "transformer" := Some "model" ]> (<[ "embeddings" := None ]> ∅).

(** The key a field is filed under: its entry in the key map, or else
    its own name. *)
Definition field_key (field : string) : option string :=
  match _state_dict_key_map !! field with
  | Some k => k
  | None => Some field
  end.

(** Modelled from the spec: the mixin's own [from_state_dict] and
    [update_state_dict] are not in the source tree.  Each field is read
    from, and written to, the dictionary under its key-map name below the
    prefix, in the order the fields are declared. *)
Definition super_from_state_dict (self : MistralLMHeadModel)
    (state_dict : StateDict) (prefix : option string)
  : result MistralLMHeadModel :=
  bind (transformer_from_state_dict (transformer self) state_dict
          (apply_prefix prefix (field_key "transformer"))) (fun t =>
  bind (embedding_from_state_dict (embeddings self) state_dict
          (apply_prefix prefix (field_key "embeddings"))) (fun e =>
  bind (Linear_from_state_dict (lm_head self) state_dict
          (apply_prefix prefix (field_key "lm_head"))) (fun l =>
  Ok {| transformer := t; embeddings := e; lm_head := l |}))).

Definition super_update_state_dict (self : MistralLMHeadModel)
    (state_dict : StateDict) (prefix : option string) : result StateDict :=
  bind (transformer_update_state_dict (transformer self) state_dict
          (apply_prefix prefix (field_key "transformer"))) (fun d1 =>
  bind (embedding_update_state_dict (embeddings self) d1
          (apply_prefix prefix (field_key "embeddings"))) (fun d2 =>
  Ok (Linear_update_state_dict (lm_head self) d2
        (apply_prefix prefix (field_key "lm_head"))))).

(** [from_state_dict] (lines 199-207). *)
Definition from_state_dict (self : MistralLMHeadModel) (state_dict : loc)
    (prefix : option string) : M MistralLMHeadModel :=
  d ← dict_copy state_dict;
  sd ← dict_get state_dict;
  unflattened ← lift (unflatten_linear_layers
                        (apply_prefix prefix (Some "lm_head")) sd
                        (lm_head self) (Some true));
  _ ← dict_update d unflattened;
  dv ← dict_get d;
  lift (super_from_state_dict self dv prefix).

(** [update_state_dict] (lines 209-218). *)
Definition update_state_dict (self : MistralLMHeadModel) (state_dict : loc)
    (prefix : option string) : M loc :=
  my_dict ← dict_new;
  _ ← dict_modify my_dict (fun d => super_update_state_dict self d prefix);
  flat ← lift (flatten_linear_layers
                 (apply_prefix prefix (Some "lm_head")) (lm_head self)
                 (Some true));
  _ ← dict_update my_dict flat;
  mine ← dict_get my_dict;
  _ ← dict_update state_dict mine;
  mret state_dict.

(** The dictionary [update_state_dict] builds before it touches its
    argument: the fields, then the flattened [lm_head] over them. *)
Definition exported (self : MistralLMHeadModel) (prefix : option string)
  : result StateDict :=
  bind (super_update_state_dict self ∅ prefix) (fun d =>
  bind (flatten_linear_layers (apply_prefix prefix (Some "lm_head"))
          (lm_head self) (Some true)) (fun flat =>
  Ok (flat ∪ d))).

(** The shape invariant of a model: the output axis of [lm_head] is the
    vocabulary axis of the embedding table, and both tensors have the
    vocabulary axis first. *)
Definition model_inv (m : MistralLMHeadModel) : Prop :=
  Linear.Out (lm_head m) = Vocab m
  /\ Linear.out_first (lm_head m)
  /\ exists E, axes (LlamaEmbedding.token_embeddings (embeddings m)) = [Vocab m; E].

(** The models that [init] and [resize_vocab] produce. *)
Inductive produced : MistralLMHeadModel -> Prop :=
| produced_init Vocab config key m :
    init Vocab config key = Ok m -> produced m
| produced_resize m new_size key :
    produced m -> produced (resize_vocab m new_size key).
End Model.

(** ** The forward call and the operations of the file *)

(** Modelled from the spec: the forward computations of the three building
    blocks ([LlamaEmbedding.embed], the call of [LlamaTransformer] and the
    call of [hnn.Linear]) and [AttentionMask] are not in the source tree.
    Section 5 of the spec: pure functions over immutable values; section 7:
    they may raise. *)
Class ForwardKernels `{LlamaComponents} : Type := {
  AttentionMask : Type;
  embed : LlamaEmbedding.t -> NamedArray -> result NamedArray;
  transformer_call :
    LlamaTransformer -> NamedArray -> option (NamedArray + AttentionMask) ->
    option PRNGKey -> result NamedArray;
  linear_call : Linear.t -> NamedArray -> option PRNGKey -> result NamedArray
}.

Section Forward.
Context `{ForwardKernels}.

(** [__call__] (lines 166-185). *)
Definition __call__ (self : MistralLMHeadModel) (input_ids : NamedArray)
    (attn_mask : option (NamedArray + AttentionMask)) (key : option PRNGKey)
  : result NamedArray :=
  let '(k_t, k_head) := maybe_rng_split key in
  bind (embed (embeddings self) input_ids) (fun x =>
  bind (transformer_call (transformer self) x attn_mask k_t) (fun x =>
  bind (linear_call (lm_head self) x k_head) (fun lm_logits =>
  Ok lm_logits))).

(** The operations of the file, each with the arguments of one call.  A
    dictionary argument is the name of an object in the store; every other
    argument is an immutable value. *)
Inductive operation : Type :=
| call_from_hf_config (hf_config : HfMistralConfig)
| call_to_hf_config (self : MistralConfig) (vocab_size : Z)
    (config_overrides : option (gmap string pyvalue))
| call_forward (self : MistralLMHeadModel) (input_ids : NamedArray)
    (attn_mask : option (NamedArray + AttentionMask)) (key : option PRNGKey)
| call_resize_vocab (self : MistralLMHeadModel) (new_size : Z)
    (key : option PRNGKey)
| call_from_state_dict (self : MistralLMHeadModel) (state_dict : loc)
    (prefix : option string)
| call_update_state_dict (self : MistralLMHeadModel) (state_dict : loc)
    (prefix : option string).

(** What an operation returns. *)
Definition returned (op : operation) : Type :=
  match op with
  | call_from_hf_config _ => MistralConfig
  | call_to_hf_config _ _ _ => HfMistralConfig
  | call_forward _ _ _ _ => NamedArray
  | call_resize_vocab _ _ _ => MistralLMHeadModel
  | call_from_state_dict _ _ _ => MistralLMHeadModel
  | call_update_state_dict _ _ _ => loc
  end.

(** Running an operation against the store. *)
Definition perform (op : operation) : M (returned op) :=
  match op return M (returned op) with
  | call_from_hf_config hf_config => mret (from_hf_config hf_config)
  | call_to_hf_config self vocab_size config_overrides =>
      lift (to_hf_config self vocab_size config_overrides)
  | call_forward self input_ids attn_mask key =>
      lift (__call__ self input_ids attn_mask key)
  | call_resize_vocab self new_size key =>
      mret (resize_vocab self new_size key)
  | call_from_state_dict self state_dict prefix =>
      from_state_dict self state_dict prefix
  | call_update_state_dict self state_dict prefix =>
      update_state_dict self state_dict prefix
  end.

Definition is_update (op : operation) : bool :=
  match op with
  | call_update_state_dict _ _ _ => true
  | _ => false
  end.

(** The dictionary an operation is handed, if any. *)
Definition state_dict_of (op : operation) : option loc :=
  match op with
  | call_from_state_dict _ state_dict _ => Some state_dict
  | call_update_state_dict _ state_dict _ => Some state_dict
  | _ => None
  end.

(** Two stores hold the same entries in the dictionary an operation is
    handed. *)
Definition same_argument (op : operation) (h h' : heap) : Prop :=
  match state_dict_of op with
  | Some l => h !! l = h' !! l
  | None => True
  end.
End Forward.

(** ** A small instance of the components

    Keys are numbers, the initialiser draws a count, and the stack is a
    single normalisation vector filed under [norm.weight]; the embedding
    table is filed under [embed_tokens.weight].  The concrete runs below
    use it. *)
Module Small.
Definition float_of_nat (n : nat) : float :=
  PrimFloat.of_uint63 (Uint63.of_Z (Z.of_nat n)).

Definition random : JaxRandom := {|
  PRNGKey := nat;
  split := fun k => ((2 * k)%nat, (2 * k + 1)%nat);
  sample := fun k i => float_of_nat (k + i);
  resize_fill := fun _ _ _ _ => 0%float
|}.

Record Stack : Type := { stack_config : MistralConfig; norm : NamedArray }.

Definition stack_init (config : MistralConfig) (key : nat) : result Stack :=
  bind (HeadSize config) (fun _ =>
  Ok {| stack_config := config;
        norm := {| axes := [Embed config];
                   values := float_of_nat <$> seq key (Z.to_nat (hidden_dim config)) |} |}).

Definition stack_from_state_dict (self : Stack) (d : StateDict)
    (prefix : option string) : result Stack :=
  bind (read_into (norm self) d (param_key prefix "norm.weight")) (fun n =>
  Ok {| stack_config := stack_config self; norm := n |}).

Definition stack_update_state_dict (self : Stack) (d : StateDict)
    (prefix : option string) : result StateDict :=
  Ok (<[ param_key prefix "norm.weight" := array (norm self) ]> d).

Definition table_from_state_dict (self : LlamaEmbedding.t) (d : StateDict)
    (prefix : option string) : result LlamaEmbedding.t :=
  bind (read_into (LlamaEmbedding.token_embeddings self) d
          (param_key prefix "embed_tokens.weight")) (fun w =>
  Ok {| LlamaEmbedding.Vocab := LlamaEmbedding.Vocab self;
        LlamaEmbedding.token_embeddings := w |}).

Definition table_update_state_dict (self : LlamaEmbedding.t) (d : StateDict)
    (prefix : option string) : result StateDict :=
  Ok (<[ param_key prefix "embed_tokens.weight" :=
           array (LlamaEmbedding.token_embeddings self) ]> d).

Definition components : @LlamaComponents random :=
  @Build_LlamaComponents random Stack stack_config stack_init
    stack_from_state_dict stack_update_state_dict
    table_from_state_dict table_update_state_dict.

Abbreviation Model := (@MistralLMHeadModel random components).

(** A configuration with two heads over a hidden size of two. *)
Definition tiny_config : MistralConfig := {|
  seq_len := 4;
  hidden_dim := 2;
  intermediate_dim := 4;
  num_layers := 1;
  num_heads := 2;
  num_kv_heads := 1;
  activation_function := "silu";
  initializer_range := initializer_range default_config;
  layer_norm_epsilon := layer_norm_epsilon default_config;
  sliding_window := 4;
  upcast_attn := false;
  use_flash_attention := false;
  flash_attention_block_size := None;
  gradient_checkpointing := true;
  gradient_checkpointing_block_size := 5;
  use_bias := false;
  rope_scaling := None
|}.

Definition tiny_vocab : Axis := {| name := "vocab"; size := 3 |}.

(** The model [init] builds from them with key 1. *)
Definition tiny_model : Model :=
  @Build_MistralLMHeadModel random components
    {| stack_config := tiny_config;
       norm := {| axes := [Embed tiny_config];
                  values := float_of_nat <$> [2; 3]%nat |} |}
    (@LlamaEmbedding.init random tiny_vocab tiny_config 3%nat)
    (@Linear.init random (Embed tiny_config) tiny_vocab 3%nat false true).

(** The same model with the weight of [lm_head] laid out input axis
    first. *)
Definition in_first_model : Model :=
  @Build_MistralLMHeadModel random components
    (transformer tiny_model)
    (embeddings tiny_model)
    {| Linear.weight :=
         {| axes := [Embed tiny_config; tiny_vocab];
            values := float_of_nat <$> [1; 2; 3; 4; 5; 6]%nat |};
       Linear.bias := Some {| axes := [tiny_vocab];
                              values := float_of_nat <$> [7; 8; 9]%nat |};
       Linear.In := Embed tiny_config;
       Linear.Out := tiny_vocab |}.

(** Forward kernels for the small instance: the embedding returns the
    table, the stack passes its input on and the projection returns its
    weight. *)
Definition kernels : @ForwardKernels random components :=
  @Build_ForwardKernels random components unit
    (fun e _ => Ok (LlamaEmbedding.token_embeddings e))
    (fun t x _ _ => Ok x)
    (fun l x _ => Ok (Linear.weight l)).

(** The checkpoint [update_state_dict] makes of the tiny model in an empty
    dictionary, and the same with another [lm_head] weight. *)
Definition tiny_checkpoint : StateDict :=
  default ∅
    (snd (@update_state_dict random components tiny_model 0%nat None [∅])
       !! 0%nat).

Definition other_weight : ndarray :=
  {| shape := [3; 2];
     data := float_of_nat <$> [10; 11; 12; 13; 14; 15]%nat |}.

Definition other_checkpoint : StateDict :=
  <[ "lm_head.weight" := other_weight ]> tiny_checkpoint.
End Small.

(** ** The invariant the specification states for a configuration *)


(** A configuration with three heads over a hidden size of ten. *)
Definition ten_over_three : MistralConfig := {|
  seq_len := seq_len default_config;
  hidden_dim := 10;
  intermediate_dim := intermediate_dim default_config;
  num_layers := num_layers default_config;
  num_heads := 3;
  num_kv_heads := 1;
  activation_function := activation_function default_config;
  initializer_range := initializer_range default_config;
  layer_norm_epsilon := layer_norm_epsilon default_config;
  sliding_window := sliding_window default_config;
  upcast_attn := upcast_attn default_config;
  use_flash_attention := use_flash_attention default_config;
  flash_attention_block_size := flash_attention_block_size default_config;
  gradient_checkpointing := gradient_checkpointing default_config;
  gradient_checkpointing_block_size :=
    gradient_checkpointing_block_size default_config;
  use_bias := use_bias default_config;
  rope_scaling := rope_scaling default_config
|}.

(** The fields outside the shared subset hold their dataclass defaults. *)
Definition keeps_defaults (c : MistralConfig) : Prop :=
  upcast_attn c = upcast_attn default_config
  /\ use_flash_attention c = use_flash_attention default_config
  /\ flash_attention_block_size c = flash_attention_block_size default_config
  /\ gradient_checkpointing c = gradient_checkpointing default_config
  /\ gradient_checkpointing_block_size c
     = gradient_checkpointing_block_size default_config
  /\ use_bias c = use_bias default_config
  /\ rope_scaling c = rope_scaling default_config.

(** * Properties of the configuration *)

Lemma duplicate_keyword_empty : duplicate_keyword ∅ = None.
Proof. reflexivity. Qed.

Lemma duplicate_keyword_Some (o : gmap string pyvalue) (k : string) :
  duplicate_keyword o = Some k -> k ∈ explicit_keywords /\ is_Some (o !! k).
Proof.
  unfold duplicate_keyword. intros Hk.
  apply head_Some_elem_of in Hk.
  apply list_elem_of_filter in Hk. tauto.
Qed.

Lemma to_hf_config_shared (c : MistralConfig) (v : Z)
    (o : option (gmap string pyvalue)) (hf : HfMistralConfig) :
  to_hf_config c v o = Ok hf -> hf_shared hf = config_shared c.
Proof.
  unfold to_hf_config. destruct (duplicate_keyword _); [discriminate|].
  intros [= <-]. reflexivity.
Qed.

(** C6: [from_hf_config] copies each field of the shared subset from the
    external field of the same meaning, unchanged; [seq_len] is the
    external maximum-position value whatever its magnitude, and the fields
    outside the subset keep their defaults. *)
Theorem from_hf_config_copies (hf : HfMistralConfig) :
  seq_len (from_hf_config hf) = max_position_embeddings hf
  /\ hidden_dim (from_hf_config hf) = hidden_size hf
  /\ intermediate_dim (from_hf_config hf) = intermediate_size hf
  /\ num_layers (from_hf_config hf) = num_hidden_layers hf
  /\ num_heads (from_hf_config hf) = num_attention_heads hf
  /\ num_kv_heads (from_hf_config hf) = num_key_value_heads hf
  /\ activation_function (from_hf_config hf) = hidden_act hf
  /\ initializer_range (from_hf_config hf) = hf_initializer_range hf
  /\ layer_norm_epsilon (from_hf_config hf) = rms_norm_eps hf
  /\ sliding_window (from_hf_config hf) = hf_sliding_window hf.
Proof. repeat split. Qed.

(** C2: converting an external configuration with [from_hf_config] and
    back with [to_hf_config] returns a configuration with the original
    values on the shared field subset.  Without overrides the call always
    returns; with overrides it either returns such a configuration or
    raises the [TypeError] of a keyword given twice. *)
Theorem hf_config_round_trip (hf : HfMistralConfig) (vocab_size : Z) :
  (exists hf', to_hf_config (from_hf_config hf) vocab_size None = Ok hf'
               /\ hf_shared hf' = hf_shared hf)
  /\ forall overrides : gmap string pyvalue,
       match to_hf_config (from_hf_config hf) vocab_size (Some overrides) with
       | Ok hf' => hf_shared hf' = hf_shared hf /\ hf_kwargs hf' = overrides
       | Raise e => exists k, e = TypeError k /\ k ∈ explicit_keywords
                              /\ is_Some (overrides !! k)
       end.
Proof.
  split.
  - eexists. split; [reflexivity|]. destruct hf; reflexivity.
  - intros o.
    destruct (to_hf_config (from_hf_config hf) vocab_size (Some o)) as [hf'|e] eqn:E.
    + split.
      * rewrite (to_hf_config_shared _ _ _ _ E). destruct hf; reflexivity.
      * revert E. unfold to_hf_config.
        destruct (duplicate_keyword o); [discriminate|]. by intros [= <-].
    + revert E. unfold to_hf_config.
      destruct (duplicate_keyword o) as [k|] eqn:Hk; [|discriminate].
      intros [= <-]. exists k. split; [done|].
      by apply duplicate_keyword_Some.
Qed.



(** * Transposition of row-major data *)

Section Transpose.
Local Open Scope nat_scope.
Context {A : Type}.
Implicit Types (d : list A) (rows cols k : nat).

Lemma omap_lookup_all {B : Type} (f : B -> option A) (l : list B) :
  (forall x, x ∈ l -> is_Some (f x)) ->
  forall k, omap f l !! k = l !! k ≫= f.
Proof.
  induction l as [|x l IH]; intros Hall k; [done|].
  destruct (Hall x) as [y Hy]; [left|].
  cbn [omap list_omap]. rewrite Hy.
  destruct k as [|k]; cbn.
  - by rewrite Hy.
  - apply IH. intros z Hz. apply Hall. by right.
Qed.

Lemma omap_length_all {B : Type} (f : B -> option A) (l : list B) :
  (forall x, x ∈ l -> is_Some (f x)) -> length (omap f l) = length l.
Proof.
  induction l as [|x l IH]; intros Hall; [done|].
  destruct (Hall x) as [y Hy]; [left|].
  cbn [omap list_omap]. rewrite Hy. cbn. f_equal.
  apply IH. intros z Hz. apply Hall. by right.
Qed.

Lemma transpose_index_lt rows cols k :
  k < rows * cols -> (k mod rows) * cols + k / rows < rows * cols.
Proof.
  intros Hk.
  assert (rows <> 0) as Hr by (intros ->; lia).
  pose proof (Nat.mod_upper_bound k rows Hr) as Hm.
  assert (k / rows < cols) as Hq
    by (apply Nat.Div0.div_lt_upper_bound; lia).
  nia.
Qed.

Lemma transpose_all_Some rows cols d :
  length d = rows * cols ->
  forall x, x ∈ seq 0 (rows * cols) ->
    is_Some (d !! ((x mod rows) * cols + x / rows)).
Proof.
  intros Hlen x Hx. apply elem_of_seq in Hx.
  apply lookup_lt_is_Some. rewrite Hlen.
  apply transpose_index_lt. lia.
Qed.

Lemma length_transpose rows cols d :
  length d = rows * cols -> length (transpose rows cols d) = rows * cols.
Proof.
  intros Hlen. unfold transpose.
  rewrite omap_length_all by by apply transpose_all_Some.
  apply length_seq.
Qed.

Lemma lookup_transpose rows cols d k :
  length d = rows * cols -> k < rows * cols ->
  transpose rows cols d !! k = d !! ((k mod rows) * cols + k / rows).
Proof.
  intros Hlen Hk. unfold transpose.
  rewrite omap_lookup_all by by apply transpose_all_Some.
  by rewrite lookup_seq_lt.
Qed.

(** Transposing twice gives the data back. *)
Lemma transpose_involutive rows cols d :
  length d = rows * cols ->
  transpose cols rows (transpose rows cols d) = d.
Proof.
  intros Hlen.
  pose proof (length_transpose rows cols d Hlen) as Hlen1.
  assert (length (transpose rows cols d) = cols * rows) as Hlen1' by lia.
  pose proof (length_transpose cols rows _ Hlen1') as Hlen2.
  apply list_eq. intros k.
  destruct (decide (k < rows * cols)) as [Hk|Hk].
  - assert (rows <> 0) as Hr by (intros ->; lia).
    assert (cols <> 0) as Hc by (intros ->; lia).
    rewrite (lookup_transpose cols rows) by (done || lia).
    assert (k / cols < rows) as Hq
      by (apply Nat.Div0.div_lt_upper_bound; lia).
    pose proof (Nat.mod_upper_bound k cols Hc) as Hm.
    rewrite lookup_transpose by (done || nia).
    f_equal.
    rewrite (Nat.add_comm (k mod cols * rows)).
    rewrite Nat.Div0.mod_add, Nat.div_add by done.
    rewrite (Nat.mod_small (k / cols)), (Nat.div_small (k / cols)) by done.
    pose proof (Nat.div_mod_eq k cols). lia.
  - rewrite !lookup_ge_None_2 by lia. done.
Qed.
End Transpose.

(** * Flattening and unflattening a linear layer *)

Lemma param_key_weight_bias (q : option string) :
  param_key q "weight" <> param_key q "bias".
Proof.
  destruct q as [p|]; cbn; [|done].
  intros Heq. apply (inj (String.app p)), (inj (String.app ".")) in Heq.
  discriminate.
Qed.

Lemma check_shape_eq (sh : list Z) (a : ndarray) :
  shape a = sh -> check_shape sh a = Ok a.
Proof. intros <-. unfold check_shape. by rewrite decide_True. Qed.

Lemma check_shape_Ok (a : ndarray) : check_shape (shape a) a = Ok a.
Proof. by apply check_shape_eq. Qed.

Lemma numel_two (a b : Z) : numel [a; b] = (Z.to_nat a * Z.to_nat b)%nat.
Proof. cbn. lia. Qed.

Lemma array_eta (x : NamedArray) (axs : list Axis) :
  axs = axes x -> {| axes := axs; values := values x |} = x.
Proof. intros ->. by destruct x. Qed.

Lemma flatten_weight_Ok (l : Linear.t) (f : option bool) :
  Linear.wf l -> exists a, flatten_weight l f = Ok a.
Proof.
  intros [[Ho|Hi] _]; unfold flatten_weight.
  - rewrite decide_True by done. destruct f as [[]|]; eauto.
  - destruct (decide (axes (Linear.weight l) = _)).
    + destruct f as [[]|]; eauto.
    + rewrite decide_True by done. destruct f as [[]|]; eauto.
Qed.

(** Unflattening into a layer laid out like [l] what flattening [l] gave
    returns the weight of [l], element for element. *)
Lemma unflatten_flatten_weight (l tmpl : Linear.t) (f : option bool) (a : ndarray) :
  Linear.wf l -> Linear.same_layout tmpl l ->
  flatten_weight l f = Ok a ->
  unflatten_weight tmpl f a = Ok (array (Linear.weight l)).
Proof.
  intros (Hlay & Hwf & _) (Hax & HIn & HOut & _).
  unfold flatten_weight, unflatten_weight. rewrite Hax, HIn, HOut.
  unfold NamedArray_wf, ndarray_wf in Hwf. cbn in Hwf.
  destruct (decide (axes (Linear.weight l) = [Linear.Out l; Linear.In l]))
    as [E|NE].
  - rewrite E in Hwf. cbn [fmap list_fmap] in Hwf. rewrite numel_two in Hwf.
    assert (array (Linear.weight l)
            = {| shape := [size (Linear.Out l); size (Linear.In l)];
                 data := values (Linear.weight l) |}) as Harr
      by (unfold array; by rewrite E).
    destruct f as [[]|]; intros [= <-].
    + rewrite Harr. apply check_shape_Ok.
    + rewrite check_shape_eq by done. cbn [bind data].
      rewrite transpose_involutive by done. by rewrite Harr.
    + rewrite Harr. apply check_shape_Ok.
  - destruct Hlay as [Ho|Hi]; [done|]. unfold Linear.in_first in Hi.
    rewrite !decide_True by done.
    rewrite Hi in Hwf. cbn [fmap list_fmap] in Hwf. rewrite numel_two in Hwf.
    assert (array (Linear.weight l)
            = {| shape := [size (Linear.In l); size (Linear.Out l)];
                 data := values (Linear.weight l) |}) as Harr
      by (unfold array; by rewrite Hi).
    destruct f as [[]|]; intros [= <-].
    + rewrite check_shape_eq by done. cbn [bind data].
      rewrite transpose_involutive by done. by rewrite Harr.
    + rewrite Harr. apply check_shape_Ok.
    + rewrite Harr. apply check_shape_Ok.
Qed.

Lemma same_layout_bias (tmpl l : Linear.t) :
  Linear.same_layout tmpl l ->
  match Linear.bias tmpl, Linear.bias l with
  | Some bt, Some b => axes bt = axes b
  | None, None => True
  | _, _ => False
  end.
Proof.
  intros (_ & _ & _ & Hb).
  destruct (Linear.bias tmpl), (Linear.bias l); cbn in Hb; by simplify_eq.
Qed.

(** The flattened entries of [l], wherever they sit in a dictionary, are
    unflattened to the entries of [l] in its own layout. *)
Lemma unflatten_flatten_layers (l tmpl : Linear.t) (q : option string)
    (f : option bool) (flat d : StateDict) :
  Linear.wf l -> Linear.same_layout tmpl l ->
  flatten_linear_layers q l f = Ok flat -> flat ⊆ d ->
  unflatten_linear_layers q d tmpl f = Ok (native_entries l q).
Proof.
  intros Hwf Hsame Hflat Hsub.
  pose proof (same_layout_bias _ _ Hsame) as Hb.
  unfold flatten_linear_layers in Hflat.
  destruct (flatten_weight l f) as [a|] eqn:Ea; [|discriminate]. cbn in Hflat.
  pose proof (unflatten_flatten_weight l tmpl f a Hwf Hsame Ea) as Hun.
  pose proof (param_key_weight_bias q) as Hne.
  unfold unflatten_linear_layers, native_entries, Linear_update_state_dict,
    lookup_key.
  destruct (Linear.bias tmpl) as [bt|], (Linear.bias l) as [b|]; try done;
    simplify_eq.
  - assert (d !! param_key q "weight" = Some a) as ->.
    { eapply lookup_weaken; [|done].
      rewrite lookup_insert_ne by done. apply lookup_singleton_eq. }
    cbn. rewrite Hun. cbn.
    assert (d !! param_key q "bias" = Some (array b)) as ->.
    { eapply lookup_weaken; [|done]. apply lookup_insert_eq. }
    cbn. unfold array at 1. rewrite Hb. fold (array b).
    replace (size <$> axes b) with (shape (array b)) by done.
    rewrite check_shape_Ok. cbn. by rewrite insert_empty.
  - assert (d !! param_key q "weight" = Some a) as ->.
    { eapply lookup_weaken; [|done]. apply lookup_singleton_eq. }
    cbn. rewrite Hun. cbn. by rewrite insert_empty.
Qed.

(** Reading a layer laid out like [l] from a dictionary that holds the
    entries of [l] gives [l]. *)
Lemma Linear_from_native (l tmpl : Linear.t) (q : option string) (d : StateDict) :
  Linear.same_layout tmpl l -> native_entries l q ⊆ d ->
  Linear_from_state_dict tmpl d q = Ok l.
Proof.
  intros Hsame Hsub.
  pose proof (same_layout_bias _ _ Hsame) as Hb.
  destruct Hsame as (Hax & HIn & HOut & _).
  pose proof (param_key_weight_bias q) as Hne.
  unfold native_entries, Linear_update_state_dict in Hsub.
  unfold Linear_from_state_dict, read_into, lookup_key.
  destruct (Linear.bias tmpl) as [bt|] eqn:Ebt, (Linear.bias l) as [b|] eqn:Eb;
    try done.
  - assert (d !! param_key q "weight" = Some (array (Linear.weight l))) as ->.
    { eapply lookup_weaken; [|done].
      rewrite lookup_insert_ne by done. apply lookup_insert_eq. }
    cbn. unfold array at 1. rewrite Hax.
    replace (size <$> axes (Linear.weight l))
      with (shape (array (Linear.weight l))) by done.
    rewrite check_shape_Ok. cbn.
    assert (d !! param_key q "bias" = Some (array b)) as ->.
    { eapply lookup_weaken; [|done]. apply lookup_insert_eq. }
    cbn. unfold array at 1. rewrite Hb.
    replace (size <$> axes b) with (shape (array b)) by done.
    rewrite check_shape_Ok. cbn.
    rewrite !array_eta by done. rewrite HIn, HOut, <- Eb. by destruct l.
  - assert (d !! param_key q "weight" = Some (array (Linear.weight l))) as ->.
    { eapply lookup_weaken; [|done]. apply lookup_insert_eq. }
    cbn. unfold array at 1. rewrite Hax.
    replace (size <$> axes (Linear.weight l))
      with (shape (array (Linear.weight l))) by done.
    rewrite check_shape_Ok. cbn.
    rewrite !array_eta by done. rewrite HIn, HOut, <- Eb. by destruct l.
Qed.

(** * Running the dictionary operations *)

Lemma bind_run {A B : Type} (m : M A) (k : A -> M B) (h h' : heap) (a : A) :
  m h = (Ok a, h') -> (m ≫= k) h = k a h'.
Proof. unfold mbind, M_bind. by intros ->. Qed.

Lemma bind_raise {A B : Type} (m : M A) (k : A -> M B) (h h' : heap) (e : exn) :
  m h = (Raise e, h') -> (m ≫= k) h = (Raise e, h').
Proof. unfold mbind, M_bind. by intros ->. Qed.

Lemma dict_get_run (l : loc) (h : heap) (d : StateDict) :
  h !! l = Some d -> dict_get l h = (Ok d, h).
Proof. unfold dict_get. by intros ->. Qed.

Lemma dict_get_raise (l : loc) (h : heap) :
  h !! l = None -> dict_get l h = (Raise (ValueError "no such object"), h).
Proof. unfold dict_get. by intros ->. Qed.

Lemma dict_copy_run (l : loc) (h : heap) (d : StateDict) :
  h !! l = Some d -> dict_copy l h = (Ok (length h), h ++ [d]).
Proof.
  intros Hl. unfold dict_copy. by rewrite (bind_run _ _ _ _ _ (dict_get_run _ _ _ Hl)).
Qed.

Lemma dict_update_run (l : loc) (other : StateDict) (h : heap) (d : StateDict) :
  h !! l = Some d -> dict_update l other h = (Ok tt, <[ l := other ∪ d ]> h).
Proof.
  intros Hl. unfold dict_update.
  by rewrite (bind_run _ _ _ _ _ (dict_get_run _ _ _ Hl)).
Qed.

Lemma dict_modify_run (l : loc) (f : StateDict -> result StateDict) (h : heap)
    (d : StateDict) :
  h !! l = Some d ->
  dict_modify l f h =
    match f d with
    | Ok d' => (Ok tt, <[ l := d' ]> h)
    | Raise e => (Raise e, h)
    end.
Proof.
  intros Hl. unfold dict_modify.
  rewrite (bind_run _ _ _ _ _ (dict_get_run _ _ _ Hl)).
  unfold mbind, M_bind, lift. by destruct (f d).
Qed.

Lemma lookup_fresh (h : heap) (d : StateDict) : (h ++ [d]) !! length h = Some d.
Proof. by apply list_lookup_middle. Qed.

Lemma insert_fresh (h : heap) (d d' : StateDict) :
  <[ length h := d' ]> (h ++ [d]) = h ++ [d'].
Proof. rewrite insert_app_r_alt by done. by rewrite Nat.sub_diag. Qed.

Section ModelProperties.
Context `{LlamaComponents}.
Implicit Types (m self tmpl : MistralLMHeadModel) (h : heap) (l : loc)
  (prefix : option string) (sd : StateDict).

Lemma field_key_lm_head : field_key "lm_head" = Some "lm_head".
Proof. reflexivity. Qed.

Lemma field_key_transformer : field_key "transformer" = Some "model".
Proof. reflexivity. Qed.

Lemma field_key_embeddings : field_key "embeddings" = None.
Proof. reflexivity. Qed.

(** [from_state_dict] on a live dictionary: the copy is the one new
    object; the entries of [lm_head] are unflattened into it and the
    fields are read from it. *)
Lemma from_state_dict_run self l prefix h sd :
  h !! l = Some sd ->
  from_state_dict self l prefix h =
    match unflatten_linear_layers (apply_prefix prefix (Some "lm_head")) sd
            (lm_head self) (Some true) with
    | Ok u => (super_from_state_dict self (u ∪ sd) prefix, h ++ [u ∪ sd])
    | Raise e => (Raise e, h ++ [sd])
    end.
Proof.
  intros Hl. unfold from_state_dict.
  rewrite (bind_run _ _ _ _ _ (dict_copy_run _ _ _ Hl)).
  assert ((h ++ [sd]) !! l = Some sd) as Hl' by by apply lookup_app_l_Some.
  rewrite (bind_run _ _ _ _ _ (dict_get_run _ _ _ Hl')).
  destruct (unflatten_linear_layers _ sd _ _) as [u|e] eqn:Eu.
  - rewrite (bind_run (lift (Ok u)) _ _ (h ++ [sd]) u) by done.
    rewrite (bind_run _ _ _ _ _ (dict_update_run _ u _ _ (lookup_fresh h sd))).
    rewrite insert_fresh.
    rewrite (bind_run _ _ _ _ _ (dict_get_run _ _ _ (lookup_fresh h _))).
    done.
  - by rewrite (bind_raise (lift (Raise e)) _ _ (h ++ [sd]) e).
Qed.

Lemma from_state_dict_dangling self l prefix h :
  h !! l = None ->
  from_state_dict self l prefix h = (Raise (ValueError "no such object"), h).
Proof.
  intros Hl. unfold from_state_dict, dict_copy.
  by rewrite (bind_raise _ _ _ _ _
                (bind_raise _ _ _ _ _ (dict_get_raise _ _ Hl))).
Qed.

(** [update_state_dict]: the exported entries are built in a new
    dictionary and then written into the one passed in, which is
    returned. *)
Lemma update_state_dict_run self l prefix h :
  match exported self prefix with
  | Ok mine =>
      update_state_dict self l prefix h =
        match (h ++ [mine]) !! l with
        | Some sd => (Ok l, <[ l := mine ∪ sd ]> (h ++ [mine]))
        | None => (Raise (ValueError "no such object"), h ++ [mine])
        end
  | Raise e =>
      exists junk, update_state_dict self l prefix h = (Raise e, h ++ [junk])
  end.
Proof.
  unfold update_state_dict, dict_new, exported.
  rewrite (bind_run (alloc ∅) _ h (h ++ [∅]) (length h)) by done.
  destruct (super_update_state_dict self ∅ prefix) as [d|e] eqn:Ed; cbn [bind].
  - rewrite (bind_run _ _ _ (h ++ [d]) tt).
    2:{ rewrite (dict_modify_run _ _ _ _ (lookup_fresh h ∅)), Ed.
        by rewrite insert_fresh. }
    destruct (flatten_linear_layers _ _ _) as [flat|e] eqn:Ef; cbn [bind].
    + rewrite (bind_run (lift (Ok flat)) _ _ (h ++ [d]) flat) by done.
      rewrite (bind_run _ _ _ _ _ (dict_update_run _ flat _ _ (lookup_fresh h d))).
      rewrite insert_fresh.
      rewrite (bind_run _ _ _ _ _ (dict_get_run _ _ _ (lookup_fresh h _))).
      destruct ((h ++ [flat ∪ d]) !! l) as [sd|] eqn:El.
      * by rewrite (bind_run _ _ _ _ _ (dict_update_run _ _ _ _ El)).
      * unfold dict_update.
        by rewrite (bind_raise _ _ _ _ _
                      (bind_raise _ _ _ _ _ (dict_get_raise _ _ El))).
    + rewrite (bind_raise (lift (Raise e)) _ _ (h ++ [d]) e) by done. eauto.
  - rewrite (bind_raise _ _ _ (h ++ [∅]) e); [eauto|].
    by rewrite (dict_modify_run _ _ _ _ (lookup_fresh h ∅)), Ed.
Qed.
Lemma flatten_linear_layers_Ok (layer : Linear.t) (q : option string)
    (f : option bool) :
  Linear.wf layer -> exists flat, flatten_linear_layers q layer f = Ok flat.
Proof.
  intros Hwf. destruct (flatten_weight_Ok layer f Hwf) as [a Ha].
  unfold flatten_linear_layers. rewrite Ha. cbn.
  destruct (Linear.bias layer); eauto.
Qed.

Lemma exported_inv self prefix (mine : StateDict) :
  exported self prefix = Ok mine ->
  exists flat d,
    flatten_linear_layers (apply_prefix prefix (Some "lm_head"))
      (lm_head self) (Some true) = Ok flat
    /\ super_update_state_dict self ∅ prefix = Ok d
    /\ mine = flat ∪ d.
Proof.
  unfold exported.
  destruct (super_update_state_dict self ∅ prefix) as [d|]; [|done].
  cbn. destruct (flatten_linear_layers _ _ _) as [flat|]; [|done].
  cbn. intros [= <-]. eauto.
Qed.

(** C1: after [update_state_dict] has exported a model into a
    dictionary, [from_state_dict] on that dictionary, run on a model
    whose [lm_head] is laid out alike, returns the original [lm_head]:
    the same axes and the same elements in the same order.  The other
    two fields are what their own import reads from the dictionary, and
    the export fails only where the export of the fields does. *)
Theorem lm_head_round_trip m tmpl prefix h l sd :
  h !! l = Some sd ->
  Linear.wf (lm_head m) ->
  Linear.same_layout (lm_head tmpl) (lm_head m) ->
  match update_state_dict m l prefix h with
  | (Ok l', h1) =>
      l' = l
      /\ exists d h2,
           from_state_dict tmpl l' prefix h1 =
             (bind (transformer_from_state_dict (transformer tmpl) d
                      (apply_prefix prefix (Some "model"))) (fun t =>
              bind (embedding_from_state_dict (embeddings tmpl) d
                      (apply_prefix prefix None)) (fun e =>
              Ok {| transformer := t; embeddings := e;
                    lm_head := lm_head m |})),
              h2)
  | (Raise e, _) => super_update_state_dict m ∅ prefix = Raise e
  end.
Proof.
  intros Hl Hwf Hsame.
  pose proof (update_state_dict_run m l prefix h) as Hrun.
  destruct (exported m prefix) as [mine|e] eqn:Eexp.
  - rewrite Hrun, (lookup_app_l_Some _ _ _ _ Hl).
    split; [done|].
    apply exported_inv in Eexp as (flat & d0 & Hflat & _ & ->).
    pose proof (lookup_lt_Some _ _ _ Hl) as Hlt.
    rewrite insert_app_l by done.
    set (sd' := flat ∪ d0 ∪ sd).
    assert ((<[l:=sd']> h ++ [flat ∪ d0]) !! l = Some sd') as Hl'.
    { apply lookup_app_l_Some. by apply list_lookup_insert_eq. }
    rewrite (from_state_dict_run _ _ _ _ _ Hl').
    assert (flat ⊆ sd') as Hsub.
    { unfold sd'. etrans; apply map_union_subseteq_l. }
    rewrite (unflatten_flatten_layers _ _ _ _ _ _ Hwf Hsame Hflat Hsub).
    eexists _, _. f_equal.
    unfold super_from_state_dict.
    rewrite field_key_transformer, field_key_embeddings, field_key_lm_head.
    rewrite (Linear_from_native (lm_head m)); [done..|].
    apply map_union_subseteq_l.
  - destruct Hrun as [junk ->].
    revert Eexp. unfold exported.
    destruct (super_update_state_dict m ∅ prefix) as [d|e']; cbn.
    + destruct (flatten_linear_layers_Ok (lm_head m)
                  (apply_prefix prefix (Some "lm_head")) (Some true) Hwf)
        as [flat ->]. done.
    + by intros [= ->].
Qed.

(** The store after [from_state_dict]. *)
Lemma from_state_dict_store self l prefix h :
  snd (from_state_dict self l prefix h) =
    match h !! l with
    | Some sd =>
        h ++ [match unflatten_linear_layers
                      (apply_prefix prefix (Some "lm_head")) sd
                      (lm_head self) (Some true) with
              | Ok u => u ∪ sd
              | Raise _ => sd
              end]
    | None => h
    end.
Proof.
  destruct (h !! l) as [sd|] eqn:Hl.
  - rewrite (from_state_dict_run _ _ _ _ _ Hl).
    by destruct (unflatten_linear_layers _ _ _ _).
  - by rewrite (from_state_dict_dangling _ _ _ _ Hl).
Qed.

(** C8: [from_state_dict] leaves the dictionary passed to it, and every
    other dictionary alive, as it was.  The one change to the store is a
    new dictionary, the copy, which holds the unflattened entries of
    [lm_head] over the entries of the original. *)
Theorem from_state_dict_keeps_argument self l prefix h :
  snd (from_state_dict self l prefix h) !! l = h !! l
  /\ take (length h) (snd (from_state_dict self l prefix h)) = h
  /\ snd (from_state_dict self l prefix h) =
       match h !! l with
       | Some sd =>
           h ++ [match unflatten_linear_layers
                         (apply_prefix prefix (Some "lm_head")) sd
                         (lm_head self) (Some true) with
                 | Ok u => u ∪ sd
                 | Raise _ => sd
                 end]
       | None => h
       end.
Proof.
  rewrite from_state_dict_store.
  destruct (h !! l) as [sd|] eqn:Hl.
  - split; [by apply lookup_app_l_Some|].
    split; [by rewrite take_app_length|done].
  - split; [done|]. split; [|done]. apply firstn_all.
Qed.

(** The two checkpoint methods and the store.  [from_state_dict] only adds
    dictionaries to the store, and what it returns is fixed by the model, the prefix and
    the entries of the dictionary passed in.  [update_state_dict] writes
    into the dictionary passed in: the exported entries go over the ones
    it had, no other dictionary alive changes, and the same dictionary is
    returned; when it raises, the dictionary is as it was. *)
Theorem operations_and_their_arguments self l prefix h :
  (exists rest, snd (from_state_dict self l prefix h) = h ++ rest)
  /\ (forall h', h' !! l = h !! l ->
        fst (from_state_dict self l prefix h')
        = fst (from_state_dict self l prefix h))
  /\ match update_state_dict self l prefix h with
     | (Ok l', h1) =>
         l' = l
         /\ exists mine,
              exported self prefix = Ok mine
              /\ take (length h) h1 = alter (fun sd => mine ∪ sd) l h
     | (Raise _, h1) => take (length h) h1 = h
     end.
Proof.
  split; [|split].
  - rewrite from_state_dict_store.
    destruct (h !! l); [eauto|]. exists []. by rewrite app_nil_r.
  - intros h' Heq.
    destruct (h !! l) as [sd|] eqn:Hl.
    + rewrite (from_state_dict_run _ _ _ h' sd Heq).
      rewrite (from_state_dict_run _ _ _ h sd Hl).
      by destruct (unflatten_linear_layers _ _ _ _).
    + rewrite (from_state_dict_dangling _ _ _ h' Heq).
      by rewrite (from_state_dict_dangling _ _ _ h Hl).
  - pose proof (update_state_dict_run self l prefix h) as Hrun.
    destruct (exported self prefix) as [mine|e] eqn:Eexp.
    + rewrite Hrun.
      destruct (decide (l < length h)%nat) as [Hlt|Hge].
      * destruct (lookup_lt_is_Some_2 h l Hlt) as [sd Hl].
        rewrite (lookup_app_l_Some _ _ _ _ Hl).
        split; [done|]. exists mine. split; [done|].
        rewrite insert_app_l by done.
        rewrite take_app_length'. 2:{ by rewrite length_insert. }
        apply list_eq. intros i.
        destruct (decide (i = l)) as [->|Hne].
        -- rewrite list_lookup_insert_eq by done.
           rewrite list_lookup_alter_eq, Hl. done.
        -- rewrite list_lookup_insert_ne by done.
           by rewrite list_lookup_alter_ne.
      * destruct ((h ++ [mine]) !! l) as [sd|] eqn:El.
        -- split; [done|]. exists mine. split; [done|].
           assert (l = length h) as ->.
           { apply lookup_lt_Some in El. rewrite length_app in El.
             cbn in El. lia. }
           rewrite insert_fresh, take_app_length.
           apply list_eq. intros i.
           destruct (decide (i = length h)) as [->|Hne].
           ++ rewrite list_lookup_alter_eq.
              by rewrite (lookup_ge_None_2 h (length h)).
           ++ by rewrite list_lookup_alter_ne.
        -- by rewrite take_app_length.
    + destruct Hrun as [junk ->]. by rewrite take_app_length.
Qed.

(** ** Resizing the vocabulary *)

Lemma resize_axis_first (x : NamedArray) (a v : Axis) (rest : list Axis)
    (n : Z) (key : option PRNGKey) :
  axes x = v :: rest -> name v = name a ->
  axes (resize_axis x a n key) = resize v n :: rest.
Proof.
  intros Hx Hname. unfold resize_axis. rewrite Hx. cbn [split_at_name].
  by rewrite decide_True.
Qed.

Lemma resize_vocab_fields m (n : Z) (key : option PRNGKey) :
  transformer (resize_vocab m n key) = transformer m
  /\ LlamaEmbedding.Vocab (embeddings (resize_vocab m n key))
     = resize (Vocab m) n
  /\ Linear.Out (lm_head (resize_vocab m n key)) = resize (Vocab m) n
  /\ Linear.In (lm_head (resize_vocab m n key)) = Linear.In (lm_head m)
  /\ Linear.bias (lm_head (resize_vocab m n key)) = Linear.bias (lm_head m)
  /\ Linear.weight (lm_head (resize_vocab m n key))
     = resize_axis (Linear.weight (lm_head m)) (Vocab m) n
         (maybe_rng_split key).2
  /\ LlamaEmbedding.token_embeddings (embeddings (resize_vocab m n key))
     = resize_axis (LlamaEmbedding.token_embeddings (embeddings m))
         (Vocab m) n (maybe_rng_split key).1.
Proof. unfold resize_vocab. by destruct (maybe_rng_split key). Qed.

Lemma resize_vocab_axes m (n : Z) (key : option PRNGKey) (E : Axis) :
  model_inv m ->
  axes (LlamaEmbedding.token_embeddings (embeddings m)) = [Vocab m; E] ->
  axes (LlamaEmbedding.token_embeddings (embeddings (resize_vocab m n key)))
    = [resize (Vocab m) n; E]
  /\ axes (Linear.weight (lm_head (resize_vocab m n key)))
     = [resize (Vocab m) n; Linear.In (lm_head m)].
Proof.
  intros (HOut & Hfirst & _) HE.
  destruct (resize_vocab_fields m n key) as (_ & _ & _ & _ & _ & -> & ->).
  split.
  - by apply resize_axis_first.
  - unfold Linear.out_first in Hfirst. rewrite HOut in Hfirst.
    by apply resize_axis_first.
Qed.

(** [resize_vocab] keeps the shape invariant. *)
Lemma resize_vocab_inv m (n : Z) (key : option PRNGKey) :
  model_inv m -> model_inv (resize_vocab m n key).
Proof.
  intros Hinv. pose proof Hinv as (HOut & Hfirst & E & HE).
  destruct (resize_vocab_axes m n key E Hinv HE) as [Hemb Hlm].
  destruct (resize_vocab_fields m n key) as (_ & HV & HO & HI & _).
  unfold model_inv, Linear.out_first, Vocab.
  rewrite Hemb, Hlm, HV, HO, HI. eauto.
Qed.

Lemma init_inv (V : Axis) (c : MistralConfig) (key : PRNGKey) m :
  init V c key = Ok m ->
  model_inv m
  /\ Vocab m = V
  /\ axes (Linear.weight (lm_head m)) = [V; Embed c]
  /\ Linear.bias (lm_head m) = None
  /\ length (values (Linear.weight (lm_head m)))
     = (Z.to_nat (size V) * Z.to_nat (hidden_dim c))%nat.
Proof.
  unfold init. destruct (split key) as [k_t k_emb].
  destruct (transformer_init c k_t) as [t|e]; [|done].
  cbn. intros [= <-].
  repeat split; try done.
  - by exists (Embed c).
  - cbn. rewrite length_fmap, length_seq. lia.
Qed.

Lemma numel_app (sh1 sh2 : list Z) :
  numel (sh1 ++ sh2) = (numel sh1 * numel sh2)%nat.
Proof.
  induction sh1 as [|s sh1 IH].
  - change (numel sh2 = (1 * numel sh2)%nat). lia.
  - change (numel ((s :: sh1) ++ sh2))
      with (Z.to_nat s * numel (sh1 ++ sh2))%nat.
    change (numel (s :: sh1)) with (Z.to_nat s * numel sh1)%nat.
    rewrite IH. lia.
Qed.

Lemma split_at_name_Some (nm : string) (axs pre post : list Axis) (a : Axis) :
  split_at_name nm axs = Some (pre, a, post) ->
  axs = pre ++ a :: post /\ name a = nm.
Proof.
  revert pre. induction axs as [|b axs IH]; intros pre; cbn; [done|].
  destruct (decide (name b = nm)) as [Hb|Hb].
  - by intros [= <- <- <-].
  - destruct (split_at_name nm axs) as [[[pre' a'] post']|]; [|done].
    intros [= <- <- <-]. destruct (IH pre' eq_refl) as [-> Hn]. done.
Qed.

Lemma length_flat_map_const {A B : Type} (f : A -> list B) (l : list A)
    (c : nat) :
  (forall x, x ∈ l -> length (f x) = c) ->
  length (flat_map f l) = (length l * c)%nat.
Proof.
  induction l as [|x l IH]; intros Hall; cbn; [done|].
  rewrite length_app, Hall by left. rewrite IH; [done|].
  intros y Hy. apply Hall. by right.
Qed.

(** A resized array holds as many elements as its new axes span. *)
Lemma resize_axis_wf (x : NamedArray) (a : Axis) (n : Z)
    (key : option PRNGKey) :
  NamedArray_wf x -> NamedArray_wf (resize_axis x a n key).
Proof.
  unfold NamedArray_wf, ndarray_wf, resize_axis. cbn. intros Hwf.
  destruct (split_at_name (name a) (axes x)) as [[[pre cur] post]|] eqn:Es;
    [|done].
  apply split_at_name_Some in Es as [Hax _]. cbn.
  rewrite Hax, fmap_app, numel_app in Hwf. cbn in Hwf.
  fold (numel (size <$> post)) in Hwf.
  rewrite fmap_app, numel_app. cbn. fold (numel (size <$> post)).
  set (outer := numel (size <$> pre)) in *.
  set (inner := numel (size <$> post)) in *.
  set (old := Z.to_nat (size cur)) in *.
  set (new := Z.to_nat n).
  rewrite (length_flat_map_const _ _ (new * inner)%nat).
  { by rewrite length_seq. }
  intros o Ho. apply elem_of_seq in Ho.
  rewrite length_app, length_take, length_drop, length_fmap, length_seq, Hwf.
  rewrite <- Nat.mul_sub_distr_r.
  assert (1 <= outer - o)%nat as Hq by lia.
  assert (old * inner <= (outer - o) * (old * inner))%nat as Hrem by nia.
  destruct (Nat.min_spec new old) as [[Hlt ->]|[Hle ->]].
  - rewrite Nat.min_l by nia. nia.
  - rewrite Nat.min_l by nia. nia.
Qed.

Lemma resize_vocab_wf m (n : Z) (key : option PRNGKey) :
  NamedArray_wf (LlamaEmbedding.token_embeddings (embeddings m)) ->
  NamedArray_wf (Linear.weight (lm_head m)) ->
  NamedArray_wf (LlamaEmbedding.token_embeddings
                   (embeddings (resize_vocab m n key)))
  /\ NamedArray_wf (Linear.weight (lm_head (resize_vocab m n key))).
Proof.
  intros He Hl.
  destruct (resize_vocab_fields m n key) as (_ & _ & _ & _ & _ & -> & ->).
  split; by apply resize_axis_wf.
Qed.

(** The axes after a resize: on a model with the shape invariant,
    [resize_vocab] with a new size returns a model whose embedding table and [lm_head] weight have
    the new size on the vocabulary axis and their other axis as before;
    the axis keeps its name and [vocab_size] is the new size. *)
Theorem resize_vocab_dimensions m (new_size : Z) (key : option PRNGKey) :
  model_inv m ->
  exists E,
    axes (LlamaEmbedding.token_embeddings (embeddings m)) = [Vocab m; E]
    /\ axes (Linear.weight (lm_head m)) = [Vocab m; Linear.In (lm_head m)]
    /\ axes (LlamaEmbedding.token_embeddings
               (embeddings (resize_vocab m new_size key)))
       = [{| name := name (Vocab m); size := new_size |}; E]
    /\ axes (Linear.weight (lm_head (resize_vocab m new_size key)))
       = [{| name := name (Vocab m); size := new_size |};
          Linear.In (lm_head m)]
    /\ shape (array (LlamaEmbedding.token_embeddings
                       (embeddings (resize_vocab m new_size key))))
       = [new_size; size E]
    /\ shape (array (Linear.weight (lm_head (resize_vocab m new_size key))))
       = [new_size; size (Linear.In (lm_head m))]
    /\ vocab_size (resize_vocab m new_size key) = new_size.
Proof.
  intros Hinv. pose proof Hinv as (HOut & Hfirst & E & HE).
  destruct (resize_vocab_axes m new_size key E Hinv HE) as [Hemb Hlm].
  destruct (resize_vocab_fields m new_size key) as (_ & HV & _).
  assert (vocab_size (resize_vocab m new_size key) = new_size) as Hvs.
  { unfold vocab_size, Vocab in *. by rewrite HV. }
  unfold Linear.out_first in Hfirst. rewrite HOut in Hfirst.
  exists E. unfold array. rewrite Hemb, Hlm.
  repeat split; done.
Qed.

(** C5: whenever [init] returns, the [lm_head] weight runs over the
    vocabulary axis first and the embedding axis second, so its shape is
    vocabulary size by hidden size, it holds that many elements, and
    there is no bias; [init] raises only what the constructor of the
    transformer stack raises. *)
Theorem init_lm_head_shape (Vocab : Axis) (config : MistralConfig)
    (key : PRNGKey) :
  match init Vocab config key with
  | Ok m =>
      axes (Linear.weight (lm_head m)) = [Vocab; Embed config]
      /\ shape (array (Linear.weight (lm_head m)))
         = [size Vocab; hidden_dim config]
      /\ length (values (Linear.weight (lm_head m)))
         = (Z.to_nat (size Vocab) * Z.to_nat (hidden_dim config))%nat
      /\ Linear.bias (lm_head m) = None
  | Raise e => transformer_init config (split key).1 = Raise e
  end.
Proof.
  destruct (init Vocab config key) as [m|e] eqn:Einit.
  - destruct (init_inv _ _ _ _ Einit) as (_ & _ & Hax & Hb & Hlen).
    unfold array. by rewrite Hax.
  - revert Einit. unfold init. destruct (split key) as [k_t k_emb].
    cbn. by destruct (transformer_init config k_t); [|intros [= ->]].
Qed.

(** C9: every model that [init] returns, and every model [resize_vocab]
    makes of such a model, has the vocabulary axis of its embedding table
    as the output axis of [lm_head], so [vocab_size] is the size of that
    output axis and of the first dimension of the [lm_head] weight. *)
Theorem produced_models_invariant m :
  produced m ->
  Linear.Out (lm_head m) = LlamaEmbedding.Vocab (embeddings m)
  /\ vocab_size m = size (Linear.Out (lm_head m))
  /\ shape (array (Linear.weight (lm_head m)))
     = [vocab_size m; size (Linear.In (lm_head m))].
Proof.
  intros Hp.
  assert (model_inv m) as (HOut & Hfirst & _).
  { induction Hp as [V c key m Hinit|m n key _ IH].
    - by destruct (init_inv _ _ _ _ Hinit).
    - by apply resize_vocab_inv. }
  unfold Linear.out_first in Hfirst.
  unfold array, vocab_size. rewrite Hfirst, HOut. done.
Qed.

(** C10: [resize_vocab] returns a model with the transformer of the
    original, and so with its configuration; of the three fields it
    replaces [embeddings] and [lm_head] only. *)
Theorem resize_vocab_keeps_transformer m (new_size : Z)
    (key : option PRNGKey) :
  transformer (resize_vocab m new_size key) = transformer m
  /\ config (resize_vocab m new_size key) = config m.
Proof.
  destruct (resize_vocab_fields m new_size key) as (Ht & _).
  unfold config. by rewrite Ht.
Qed.
End ModelProperties.

(** * Concrete runs *)

Example transpose_2_by_3 :
  transpose 2 3 [1; 2; 3; 4; 5; 6]%nat = [1; 4; 2; 5; 3; 6]%nat.
Proof. reflexivity. Qed.

Example init_tiny :
  @init Small.random Small.components Small.tiny_vocab Small.tiny_config 1%nat
  = Ok Small.tiny_model.
Proof. reflexivity. Qed.

Example init_no_heads_raises :
  @init Small.random Small.components Small.tiny_vocab
    {| seq_len := 4; hidden_dim := 2; intermediate_dim := 4; num_layers := 1;
       num_heads := 0; num_kv_heads := 1; activation_function := "silu";
       initializer_range := 0%float; layer_norm_epsilon := 0%float;
       sliding_window := 4; upcast_attn := false; use_flash_attention := false;
       flash_attention_block_size := None; gradient_checkpointing := true;
       gradient_checkpointing_block_size := 5; use_bias := false;
       rope_scaling := None |} 1%nat
  = Raise ZeroDivisionError.
Proof. reflexivity. Qed.

Example to_hf_config_duplicate_keyword :
  to_hf_config default_config 32000 (Some {[ "hidden_size" := PyInt 5 ]})
  = Raise (TypeError "hidden_size").
Proof. reflexivity. Qed.

(** The checkpoint of the input-first model holds the weight output
    dimension first, and importing it gives the model back. *)
Example in_first_export :
  (snd (@update_state_dict Small.random Small.components
          Small.in_first_model 0%nat None [∅]) !! 0%nat)
    ≫= (fun d => d !! "lm_head.weight")
  = Some {| shape := [3; 2];
            data := Small.float_of_nat <$> [1; 4; 2; 5; 3; 6]%nat |}.
Proof. vm_compute. reflexivity. Qed.

Example in_first_round_trip :
  fst (@from_state_dict Small.random Small.components Small.in_first_model
         0%nat None
         (snd (@update_state_dict Small.random Small.components
                 Small.in_first_model 0%nat None [∅])))
  = Ok Small.in_first_model.
Proof. vm_compute. reflexivity. Qed.

Example prefixed_round_trip :
  fst (@from_state_dict Small.random Small.components Small.tiny_model
         0%nat (Some "ckpt")
         (snd (@update_state_dict Small.random Small.components
                 Small.tiny_model 0%nat (Some "ckpt") [∅])))
  = Ok Small.tiny_model.
Proof. vm_compute. reflexivity. Qed.

Lemma tiny_model_wf : Linear.wf (lm_head Small.tiny_model).
Proof. split; [left; reflexivity|]. split; [reflexivity|exact I]. Defined.

Lemma in_first_model_wf : Linear.wf (lm_head Small.in_first_model).
Proof. split; [right; reflexivity|]. split; reflexivity. Defined.

Lemma same_layout_refl (l : Linear.t) : Linear.same_layout l l.
Proof. repeat split. Defined.

Lemma tiny_model_inv : @model_inv Small.random Small.components Small.tiny_model.
Proof.
  split; [reflexivity|]. split; [reflexivity|].
  exists (Embed Small.tiny_config). reflexivity.
Defined.

(** C1 on the input-first model, exported into an empty dictionary. *)
Lemma lm_head_round_trip_witness :
  match @update_state_dict Small.random Small.components
          Small.in_first_model 0%nat None [∅] with
  | (Ok l', h1) =>
      l' = 0%nat
      /\ exists d h2,
           @from_state_dict Small.random Small.components
             Small.in_first_model l' None h1 =
             (bind (Small.stack_from_state_dict
                      (transformer Small.in_first_model) d
                      (apply_prefix None (Some "model"))) (fun t =>
              bind (Small.table_from_state_dict
                      (embeddings Small.in_first_model) d
                      (apply_prefix None None)) (fun e =>
              Ok (@Build_MistralLMHeadModel Small.random Small.components
                    t e (lm_head Small.in_first_model)))),
              h2)
  | (Raise e, _) =>
      @super_update_state_dict Small.random Small.components
        Small.in_first_model ∅ None = Raise e
  end.
Proof.
  apply (@lm_head_round_trip Small.random Small.components
           Small.in_first_model Small.in_first_model None [∅] 0%nat ∅).
  - reflexivity.
  - exact in_first_model_wf.
  - exact (same_layout_refl _).
Defined.

(** The axes of the tiny model, resized from three words to five. *)
Lemma resize_vocab_dimensions_witness :
  @model_inv Small.random Small.components Small.tiny_model
  /\ exists E,
       axes (LlamaEmbedding.token_embeddings (embeddings Small.tiny_model))
         = [Vocab Small.tiny_model; E]
       /\ axes (Linear.weight (lm_head Small.tiny_model))
          = [Vocab Small.tiny_model; Linear.In (lm_head Small.tiny_model)]
       /\ axes (LlamaEmbedding.token_embeddings
                  (embeddings (resize_vocab Small.tiny_model 5 None)))
          = [{| name := name (Vocab Small.tiny_model); size := 5 |}; E]
       /\ axes (Linear.weight (lm_head (resize_vocab Small.tiny_model 5 None)))
          = [{| name := name (Vocab Small.tiny_model); size := 5 |};
             Linear.In (lm_head Small.tiny_model)]
       /\ shape (array (LlamaEmbedding.token_embeddings
                          (embeddings (resize_vocab Small.tiny_model 5 None))))
          = [5; size E]
       /\ shape (array (Linear.weight
                          (lm_head (resize_vocab Small.tiny_model 5 None))))
          = [5; size (Linear.In (lm_head Small.tiny_model))]
       /\ vocab_size (resize_vocab Small.tiny_model 5 None) = 5.
Proof.
  split; [exact tiny_model_inv|].
  apply (@resize_vocab_dimensions Small.random Small.components
           Small.tiny_model 5 None).
  exact tiny_model_inv.
Defined.

Example resize_tiny_grows :
  Linear.weight (lm_head (@resize_vocab Small.random Small.components
                            Small.tiny_model 5 None))
  = {| axes := [{| name := "vocab"; size := 5 |};
                {| name := "embed"; size := 2 |}];
       values := (Small.float_of_nat <$> [3; 4; 5; 6; 7; 8]%nat)
                 ++ [0; 0; 0; 0]%float |}.
Proof. vm_compute. reflexivity. Qed.

Example resize_tiny_shrinks :
  Linear.weight (lm_head (@resize_vocab Small.random Small.components
                            Small.tiny_model 1 None))
  = {| axes := [{| name := "vocab"; size := 1 |};
                {| name := "embed"; size := 2 |}];
       values := Small.float_of_nat <$> [3; 4]%nat |}.
Proof. vm_compute. reflexivity. Qed.

Lemma tiny_resized_produced :
  @produced Small.random Small.components
    (resize_vocab Small.tiny_model 5 (Some 7%nat)).
Proof.
  apply (@produced_resize Small.random Small.components).
  apply (@produced_init Small.random Small.components
           Small.tiny_vocab Small.tiny_config 1%nat).
  reflexivity.
Defined.

(** C9 on the tiny model built by [init] and resized to five words. *)
Lemma produced_models_invariant_witness :
  @produced Small.random Small.components
    (resize_vocab Small.tiny_model 5 (Some 7%nat))
  /\ Linear.Out (lm_head (@resize_vocab Small.random Small.components
                            Small.tiny_model 5 (Some 7%nat)))
     = LlamaEmbedding.Vocab
         (embeddings (@resize_vocab Small.random Small.components
                        Small.tiny_model 5 (Some 7%nat)))
  /\ vocab_size (@resize_vocab Small.random Small.components
                   Small.tiny_model 5 (Some 7%nat))
     = size (Linear.Out (lm_head (@resize_vocab Small.random Small.components
                                    Small.tiny_model 5 (Some 7%nat))))
  /\ shape (array (Linear.weight
                     (lm_head (@resize_vocab Small.random Small.components
                                 Small.tiny_model 5 (Some 7%nat)))))
     = [vocab_size (@resize_vocab Small.random Small.components
                      Small.tiny_model 5 (Some 7%nat));
        size (Linear.In
                (lm_head (@resize_vocab Small.random Small.components
                            Small.tiny_model 5 (Some 7%nat))))].
Proof.
  split; [exact tiny_resized_produced|].
  apply (@produced_models_invariant Small.random Small.components
           (resize_vocab Small.tiny_model 5 (Some 7%nat))).
  exact tiny_resized_produced.
Defined.

(** The two checkpoint methods on the tiny model and a store holding one
    empty dictionary. *)
Lemma operations_and_their_arguments_witness :
  (exists rest,
     snd (@from_state_dict Small.random Small.components
            Small.tiny_model 0%nat None [∅]) = [∅] ++ rest)
  /\ (forall h' : heap, h' !! 0%nat = ([∅] : heap) !! 0%nat ->
        fst (@from_state_dict Small.random Small.components
               Small.tiny_model 0%nat None h')
        = fst (@from_state_dict Small.random Small.components
                 Small.tiny_model 0%nat None [∅]))
  /\ match @update_state_dict Small.random Small.components
             Small.tiny_model 0%nat None [∅] with
     | (Ok l', h1) =>
         l' = 0%nat
         /\ exists mine,
              @exported Small.random Small.components Small.tiny_model None
              = Ok mine
              /\ take (length ([∅] : heap)) h1
                 = alter (fun sd => mine ∪ sd) 0%nat [∅]
     | (Raise _, h1) => take (length ([∅] : heap)) h1 = [∅]
     end.
Proof.
  exact (@operations_and_their_arguments Small.random Small.components
           Small.tiny_model 0%nat None [∅]).
Defined.

(** C7, as stated, fails: [update_state_dict] returns the dictionary it was
    given, and that dictionary, empty before the call, holds the weight of
    [lm_head] after it. *)
Lemma update_state_dict_changes_argument :
  ([∅] : heap) !! 0%nat = Some ∅
  /\ fst (@update_state_dict Small.random Small.components
            Small.tiny_model 0%nat None [∅]) = Ok 0%nat
  /\ (snd (@update_state_dict Small.random Small.components
             Small.tiny_model 0%nat None [∅]) !! 0%nat)
       ≫= (fun d => d !! "lm_head.weight")
     = Some {| shape := [3; 2];
               data := Small.float_of_nat <$> [3; 4; 5; 6; 7; 8]%nat |}
  /\ snd (@update_state_dict Small.random Small.components
            Small.tiny_model 0%nat None [∅]) !! 0%nat
     <> ([∅] : heap) !! 0%nat.
Proof.
  split; [reflexivity|]. split; [vm_compute; reflexivity|].
  split; [vm_compute; reflexivity|].
  intros Heq.
  apply (f_equal (fun o => o ≫= (fun d : StateDict => d !! "lm_head.weight")))
    in Heq.
  vm_compute in Heq. discriminate.
Qed.

(** * Further properties of the configuration *)

Lemma from_hf_config_shared (hf : HfMistralConfig) :
  config_shared (from_hf_config hf) = hf_shared hf.
Proof. reflexivity. Qed.

Lemma from_hf_config_keeps_defaults (hf : HfMistralConfig) :
  keeps_defaults (from_hf_config hf).
Proof. repeat split. Qed.

Lemma config_eq_iff (c1 c2 : MistralConfig) :
  c1 = c2 <->
  config_shared c1 = config_shared c2
  /\ upcast_attn c1 = upcast_attn c2
  /\ use_flash_attention c1 = use_flash_attention c2
  /\ flash_attention_block_size c1 = flash_attention_block_size c2
  /\ gradient_checkpointing c1 = gradient_checkpointing c2
  /\ gradient_checkpointing_block_size c1 = gradient_checkpointing_block_size c2
  /\ use_bias c1 = use_bias c2
  /\ rope_scaling c1 = rope_scaling c2.
Proof.
  split; [by intros ->|].
  destruct c1, c2. unfold config_shared. cbn.
  intros ([= -> -> -> -> -> -> -> -> -> ->] & -> & -> & -> & -> & -> & -> & ->).
  reflexivity.
Qed.

(** X1: [from_hf_config] reads the shared field subset and nothing else:
    two external configurations are converted to the same [MistralConfig]
    exactly when they agree on those ten fields, whatever their vocabulary
    sizes and other keyword arguments. *)
Theorem from_hf_config_reads_shared (hf1 hf2 : HfMistralConfig) :
  from_hf_config hf1 = from_hf_config hf2 <-> hf_shared hf1 = hf_shared hf2.
Proof.
  rewrite config_eq_iff, !from_hf_config_shared.
  split; [tauto|]. intros Hs. repeat split; done.
Qed.

Lemma duplicate_keyword_None (o : gmap string pyvalue) :
  duplicate_keyword o = None <->
  Forall (fun k => o !! k = None) explicit_keywords.
Proof.
  unfold duplicate_keyword. rewrite head_None, Forall_forall. split.
  - intros Hnil k Hk. destruct (o !! k) as [v|] eqn:Hv; [|done].
    exfalso. eapply (filter_nil_not_elem_of _ _ k Hnil); [|done].
    rewrite Hv. eauto.
  - intros Hall.
    destruct (filter _ explicit_keywords) as [|k rest] eqn:Hf; [done|].
    assert (k ∈ filter (fun k => is_Some (o !! k)) explicit_keywords) as Hin
      by (rewrite Hf; left).
    apply list_elem_of_filter in Hin as [[v Hv] Hk].
    rewrite (Hall k Hk) in Hv. done.
Qed.

(** X3: turning a [MistralConfig] into an external configuration and back
    keeps the ten shared fields; the configuration itself comes back
    exactly when its other seven fields (attention flags, gradient
    checkpointing, bias, rope scaling) hold their defaults, since the
    external schema does not carry them. *)
Theorem config_round_trip_via_hf (c : MistralConfig) (vocab_size : Z)
    (overrides : option (gmap string pyvalue)) (hf : HfMistralConfig) :
  to_hf_config c vocab_size overrides = Ok hf ->
  config_shared (from_hf_config hf) = config_shared c
  /\ (from_hf_config hf = c <-> keeps_defaults c).
Proof.
  intros Hto. apply to_hf_config_shared in Hto.
  rewrite config_eq_iff, from_hf_config_shared, Hto.
  split; [done|]. unfold keeps_defaults. cbn. intuition congruence.
Qed.

Lemma config_round_trip_via_hf_witness :
  to_hf_config ten_over_three 32000 None
  = Ok {| hf_vocab_size := 32000; max_position_embeddings := 8192;
          hidden_size := 10; intermediate_size := 14336;
          num_hidden_layers := 32; num_attention_heads := 3;
          num_key_value_heads := 1; hidden_act := "silu";
          hf_initializer_range := initializer_range default_config;
          rms_norm_eps := layer_norm_epsilon default_config;
          hf_sliding_window := 4096; hf_kwargs := ∅ |}
  /\ config_shared
       (from_hf_config
          {| hf_vocab_size := 32000; max_position_embeddings := 8192;
             hidden_size := 10; intermediate_size := 14336;
             num_hidden_layers := 32; num_attention_heads := 3;
             num_key_value_heads := 1; hidden_act := "silu";
             hf_initializer_range := initializer_range default_config;
             rms_norm_eps := layer_norm_epsilon default_config;
             hf_sliding_window := 4096; hf_kwargs := ∅ |})
     = config_shared ten_over_three
  /\ (from_hf_config
        {| hf_vocab_size := 32000; max_position_embeddings := 8192;
           hidden_size := 10; intermediate_size := 14336;
           num_hidden_layers := 32; num_attention_heads := 3;
           num_key_value_heads := 1; hidden_act := "silu";
           hf_initializer_range := initializer_range default_config;
           rms_norm_eps := layer_norm_epsilon default_config;
           hf_sliding_window := 4096; hf_kwargs := ∅ |}
      = ten_over_three <-> keeps_defaults ten_over_three).
Proof.
  split; [reflexivity|].
  apply (config_round_trip_via_hf ten_over_three 32000 None).
  reflexivity.
Defined.

(** X4: for a positive head count [HeadSize] is defined and rounds down:
    the heads together span at most [hidden_dim], and fall short of it by
    less than [num_heads]. *)
Theorem HeadSize_rounds_down (c : MistralConfig) :
  0 < num_heads c ->
  exists a,
    HeadSize c = Ok a
    /\ name a = "head_size"
    /\ size a * num_heads c <= hidden_dim c < size a * num_heads c + num_heads c.
Proof.
  intros Hpos. unfold HeadSize, floordiv.
  rewrite decide_False by lia. cbn.
  eexists. split; [reflexivity|]. split; [reflexivity|]. cbn.
  pose proof (Z.div_mod (hidden_dim c) (num_heads c) ltac:(lia)) as Hdm.
  pose proof (Z.mod_pos_bound (hidden_dim c) (num_heads c) Hpos) as Hb.
  nia.
Qed.

Lemma HeadSize_rounds_down_witness :
  0 < num_heads ten_over_three
  /\ exists a,
       HeadSize ten_over_three = Ok a
       /\ name a = "head_size"
       /\ size a * num_heads ten_over_three <= hidden_dim ten_over_three
          < size a * num_heads ten_over_three + num_heads ten_over_three.
Proof.
  split; [reflexivity|].
  apply (HeadSize_rounds_down ten_over_three). reflexivity.
Defined.

(** * Further properties of the model *)

Section FurtherModelProperties.
Context `{LlamaComponents}.
Implicit Types (m self tmpl : MistralLMHeadModel) (h : heap) (l : loc)
  (prefix : option string) (sd : StateDict).

Lemma init_fields (V : Axis) (c : MistralConfig) (key : PRNGKey) m :
  init V c key = Ok m ->
  transformer_init c (split key).1 = Ok (transformer m)
  /\ embeddings m = LlamaEmbedding.init V c (split key).2
  /\ lm_head m = Linear.init (Embed c) V (split key).2 false true.
Proof.
  unfold init. destruct (split key) as [k_t k_emb]. cbn.
  destruct (transformer_init c k_t) as [t|e]; [|done].
  cbn. by intros [= <-].
Qed.

(** X5: a model that [init] returns is built on the vocabulary axis it was
    given: [Vocab] is that axis and [vocab_size] its size, [lm_head] maps
    the configuration's [Embed] axis to it, the embedding table and the
    [lm_head] weight have the same axes, and the transformer is what the
    stack's constructor returned for the first half of the key. *)
Theorem init_uses_vocab (V : Axis) (c : MistralConfig) (key : PRNGKey) m :
  init V c key = Ok m ->
  Vocab m = V
  /\ vocab_size m = size V
  /\ Linear.In (lm_head m) = Embed c
  /\ Linear.Out (lm_head m) = V
  /\ axes (LlamaEmbedding.token_embeddings (embeddings m)) = [V; Embed c]
  /\ axes (Linear.weight (lm_head m))
     = axes (LlamaEmbedding.token_embeddings (embeddings m))
  /\ transformer_init c (split key).1 = Ok (transformer m).
Proof.
  intros Hinit. destruct (init_fields _ _ _ _ Hinit) as (Ht & He & Hl).
  unfold vocab_size, Vocab. rewrite He, Hl. done.
Qed.

(** The invariant of the models [init] and [resize_vocab] produce, with
    the element counts. *)
Lemma produced_inv_wf m :
  produced m ->
  model_inv m
  /\ Linear.bias (lm_head m) = None
  /\ NamedArray_wf (Linear.weight (lm_head m))
  /\ NamedArray_wf (LlamaEmbedding.token_embeddings (embeddings m)).
Proof.
  induction 1 as [V c key m Hinit|m n key _ (Hinv & Hb & Hw & He)].
  - destruct (init_inv _ _ _ _ Hinit) as (Hinv & _ & _ & Hb & _).
    destruct (init_fields _ _ _ _ Hinit) as (_ & He & Hl).
    split; [done|]. split; [done|]. split.
    + rewrite Hl. unfold NamedArray_wf, ndarray_wf, array, Linear.init.
      cbn [Linear.weight axes values shape data].
      by rewrite length_fmap, length_seq.
    + rewrite He. unfold NamedArray_wf, ndarray_wf, array, LlamaEmbedding.init.
      cbn [LlamaEmbedding.token_embeddings axes values shape data].
      by rewrite length_fmap, length_seq.
  - destruct (resize_vocab_wf m n key He Hw) as [He' Hw'].
    destruct (resize_vocab_fields m n key) as (_ & _ & _ & _ & Hb' & _).
    split; [by apply resize_vocab_inv|]. by rewrite Hb', Hb.
Qed.

(** X6: every model that [init] returns, and every model [resize_vocab]
    makes of such a model, has a well-formed [lm_head] without a bias: the
    weight runs over [Out] and [In] and holds as many elements as they
    span, and so does the embedding table over its axes.  These are the
    models the checkpoint round trip needs. *)
Theorem produced_models_well_formed m :
  produced m ->
  Linear.wf (lm_head m)
  /\ Linear.bias (lm_head m) = None
  /\ NamedArray_wf (LlamaEmbedding.token_embeddings (embeddings m)).
Proof.
  intros Hp. destruct (produced_inv_wf m Hp) as ((_ & Hfirst & _) & Hb & Hw & He).
  repeat split; try done.
  - by left.
  - by rewrite Hb.
Qed.

(** X7: resizing twice is resizing once to the last size, as far as the
    axes go: the embedding table, the [lm_head] weight, [Vocab] and the
    output axis of [lm_head] are those of a single [resize_vocab]. *)
Theorem resize_vocab_twice m (n1 n2 : Z) (k1 k2 : option PRNGKey) :
  model_inv m ->
  axes (LlamaEmbedding.token_embeddings
          (embeddings (resize_vocab (resize_vocab m n1 k1) n2 k2)))
  = axes (LlamaEmbedding.token_embeddings (embeddings (resize_vocab m n2 k2)))
  /\ axes (Linear.weight (lm_head (resize_vocab (resize_vocab m n1 k1) n2 k2)))
     = axes (Linear.weight (lm_head (resize_vocab m n2 k2)))
  /\ Vocab (resize_vocab (resize_vocab m n1 k1) n2 k2)
     = Vocab (resize_vocab m n2 k2)
  /\ Linear.Out (lm_head (resize_vocab (resize_vocab m n1 k1) n2 k2))
     = Linear.Out (lm_head (resize_vocab m n2 k2))
  /\ vocab_size (resize_vocab (resize_vocab m n1 k1) n2 k2) = n2.
Proof.
  intros Hinv. pose proof Hinv as (_ & _ & E & HE).
  pose proof (resize_vocab_inv m n1 k1 Hinv) as Hinv1.
  destruct (resize_vocab_axes m n1 k1 E Hinv HE) as [Hemb1 Hlm1].
  destruct (resize_vocab_fields m n1 k1) as (_ & HV1 & _ & HI1 & _).
  assert (Vocab (resize_vocab m n1 k1) = resize (Vocab m) n1) as HVoc1
    by (unfold Vocab; by rewrite HV1).
  rewrite <- HVoc1 in Hemb1.
  destruct (resize_vocab_axes _ n2 k2 E Hinv1 Hemb1) as [Hemb2 Hlm2].
  destruct (resize_vocab_axes m n2 k2 E Hinv HE) as [Hemb Hlm].
  destruct (resize_vocab_fields (resize_vocab m n1 k1) n2 k2)
    as (_ & HV2 & HO2 & _).
  destruct (resize_vocab_fields m n2 k2) as (_ & HV & HO & _).
  unfold vocab_size, Vocab in *.
  rewrite Hemb2, Hlm2, Hemb, Hlm, HV2, HO2, HV, HO, HI1, HV1. done.
Qed.

Lemma resize_axis_same_size (x : NamedArray) (a v e : Axis)
    (key : option PRNGKey) :
  axes x = [v; e] -> name v = name a -> NamedArray_wf x ->
  resize_axis x a (size v) key = x.
Proof.
  intros Hx Hname Hwf. unfold resize_axis. rewrite Hx. cbn [split_at_name].
  rewrite decide_True by done.
  unfold NamedArray_wf, ndarray_wf in Hwf. cbn in Hwf. rewrite Hx in Hwf.
  cbn [fmap list_fmap] in Hwf. rewrite numel_two in Hwf.
  cbn [fmap list_fmap numel foldr seq flat_map app].
  rewrite Nat.min_id, Nat.sub_diag, Nat.mul_0_l, Nat.mul_1_r. cbn [seq fmap list_fmap drop].
  rewrite !app_nil_r, drop_0, take_ge by lia.
  destruct x as [ax vs], v. cbn in *. by subst.
Qed.

(** X8: resizing a well-formed model to the vocabulary size it already has
    returns the model itself: no axis and no element changes. *)
Theorem resize_vocab_same_size m (key : option PRNGKey) :
  model_inv m ->
  NamedArray_wf (Linear.weight (lm_head m)) ->
  NamedArray_wf (LlamaEmbedding.token_embeddings (embeddings m)) ->
  resize_vocab m (vocab_size m) key = m.
Proof.
  intros (HOut & Hfirst & E & HE) Hw He.
  unfold Linear.out_first in Hfirst. rewrite HOut in Hfirst.
  unfold resize_vocab, LlamaEmbedding.resize_embeddings.
  destruct (maybe_rng_split key) as [k1 k2].
  unfold vocab_size.
  rewrite (resize_axis_same_size _ _ _ _ _ Hfirst eq_refl Hw).
  unfold Vocab in *.
  rewrite (resize_axis_same_size _ _ _ _ _ HE eq_refl He).
  destruct m as [t [V tab] [w b i o]]. cbn in *. subst o.
  by destruct V.
Qed.

(** X9: [resize_vocab] replaces the weight and the output axis of
    [lm_head] and nothing else of it: a bias is kept as it is.  On a
    well-formed [lm_head] that has a bias, a new size other than the
    current one therefore gives a layer whose bias no longer runs over its
    output axis. *)
Theorem resize_vocab_leaves_bias m (new_size : Z) (key : option PRNGKey)
    (b : NamedArray) :
  Linear.bias (lm_head m) = Some b ->
  Linear.wf (lm_head m) ->
  Linear.Out (lm_head m) = Vocab m ->
  new_size <> vocab_size m ->
  Linear.bias (lm_head (resize_vocab m new_size key)) = Some b
  /\ Linear.In (lm_head (resize_vocab m new_size key)) = Linear.In (lm_head m)
  /\ ~ Linear.wf (lm_head (resize_vocab m new_size key)).
Proof.
  intros Hb (_ & _ & Hbias) HOut Hne.
  destruct (resize_vocab_fields m new_size key) as (_ & _ & HO & HI & Hb' & _).
  rewrite Hb in Hbias, Hb'.
  split; [done|]. split; [done|].
  intros (_ & _ & Hbias'). rewrite Hb', HO, Hbias, HOut in Hbias'.
  apply Hne. unfold vocab_size.
  injection Hbias' as Hv. by rewrite Hv at 1.
Qed.
End FurtherModelProperties.

(** * Further properties of the checkpoint methods *)

Section CheckpointProperties.
Context `{LlamaComponents}.
Implicit Types (m self tmpl : MistralLMHeadModel) (h : heap) (l : loc)
  (prefix : option string) (sd : StateDict) (a : ndarray).

Lemma update_state_dict_live m l prefix h sd :
  h !! l = Some sd ->
  match exported m prefix with
  | Ok mine =>
      update_state_dict m l prefix h
      = (Ok l, <[ l := mine ∪ sd ]> h ++ [mine])
      /\ (<[ l := mine ∪ sd ]> h ++ [mine]) !! l = Some (mine ∪ sd)
  | Raise e =>
      exists junk,
        update_state_dict m l prefix h = (Raise e, h ++ [junk])
        /\ (h ++ [junk]) !! l = Some sd
  end.
Proof.
  intros Hl. pose proof (update_state_dict_run m l prefix h) as Hrun.
  pose proof (lookup_lt_Some _ _ _ Hl) as Hlt.
  destruct (exported m prefix) as [mine|e].
  - rewrite Hrun, (lookup_app_l_Some _ _ _ _ Hl), insert_app_l by done.
    split; [done|]. apply lookup_app_l_Some. by apply list_lookup_insert_eq.
  - destruct Hrun as [junk ->]. exists junk. split; [done|].
    by apply lookup_app_l_Some.
Qed.

(** X10: [update_state_dict] writes the exported entries over the entries
    the dictionary has: a key the model exports gets the exported array,
    every other key keeps its array.  When the export raises, the
    dictionary is as before. *)
Theorem update_state_dict_keeps_other_keys m l prefix h sd :
  h !! l = Some sd ->
  match update_state_dict m l prefix h with
  | (Ok _, h1) =>
      exists mine,
        exported m prefix = Ok mine
        /\ forall k : string,
             h1 !! l ≫= (fun d => d !! k)
             = match mine !! k with
               | Some v => Some v
               | None => sd !! k
               end
  | (Raise _, h1) => h1 !! l = Some sd
  end.
Proof.
  intros Hl. pose proof (update_state_dict_live m l prefix h sd Hl) as Hrun.
  destruct (exported m prefix) as [mine|e].
  - destruct Hrun as [-> Hl1]. exists mine. split; [done|].
    intros k. rewrite Hl1. cbn. rewrite lookup_union.
    by destruct (mine !! k), (sd !! k).
  - by destruct Hrun as (junk & -> & Hl1).
Qed.

(** X11: exporting the same model twice into a dictionary is exporting it
    once: the second [update_state_dict] returns and leaves the entries of
    the dictionary as the first one made them. *)
Theorem update_state_dict_idempotent m l prefix h h1 sd :
  h !! l = Some sd ->
  update_state_dict m l prefix h = (Ok l, h1) ->
  exists h2,
    update_state_dict m l prefix h1 = (Ok l, h2)
    /\ h2 !! l = h1 !! l.
Proof.
  intros Hl Hfirst.
  pose proof (update_state_dict_live m l prefix h sd Hl) as Hrun.
  destruct (exported m prefix) as [mine|e] eqn:Eexp.
  - destruct Hrun as [Hrun Hl1]. rewrite Hrun in Hfirst.
    injection Hfirst as <-.
    pose proof (update_state_dict_live m l prefix _ _ Hl1) as Hrun2.
    rewrite Eexp in Hrun2. destruct Hrun2 as [Hrun2 Hl2].
    eexists. split; [exact Hrun2|].
    rewrite Hl2, Hl1. f_equal.
    by rewrite (assoc_L (∪)), (idemp_L (∪)).
  - destruct Hrun as (junk & Hrun & _). rewrite Hrun in Hfirst. done.
Qed.

Lemma flatten_weight_out_first (layer : Linear.t) :
  Linear.out_first layer \/ Linear.in_first layer ->
  flatten_weight layer (Some true)
  = Ok {| shape := [size (Linear.Out layer); size (Linear.In layer)];
          data :=
            if decide (axes (Linear.weight layer)
                       = [Linear.Out layer; Linear.In layer])
            then values (Linear.weight layer)
            else transpose (Z.to_nat (size (Linear.In layer)))
                   (Z.to_nat (size (Linear.Out layer)))
                   (values (Linear.weight layer)) |}.
Proof.
  intros Hlay. unfold flatten_weight.
  destruct (decide (axes (Linear.weight layer) = _)) as [E|NE].
  - unfold array. by rewrite E.
  - destruct Hlay as [?|Hi]; [done|]. by rewrite decide_True.
Qed.

Lemma flatten_layers_weight (layer : Linear.t) (q : option string)
    (f : option bool) a (flat : StateDict) :
  flatten_weight layer f = Ok a ->
  flatten_linear_layers q layer f = Ok flat ->
  flat !! param_key q "weight" = Some a.
Proof.
  intros Ha. unfold flatten_linear_layers. rewrite Ha. cbn.
  destruct (Linear.bias layer); intros [= <-].
  - rewrite lookup_insert_ne by (apply not_eq_sym, param_key_weight_bias).
    apply lookup_singleton_eq.
  - apply lookup_singleton_eq.
Qed.

(** The entry of the [lm_head] weight after an export. *)
Lemma update_state_dict_weight_entry m l prefix h sd a :
  h !! l = Some sd ->
  flatten_weight (lm_head m) (Some true) = Ok a ->
  match update_state_dict m l prefix h with
  | (Ok _, h1) => h1 !! l ≫= (fun d => d !! param_key (apply_prefix prefix (Some "lm_head")) "weight") = Some a
  | (Raise e, _) => super_update_state_dict m ∅ prefix = Raise e
  end.
Proof.
  intros Hl Ha.
  pose proof (update_state_dict_live m l prefix h sd Hl) as Hrun.
  destruct (exported m prefix) as [mine|e] eqn:Eexp.
  - destruct Hrun as [-> ->]. cbn.
    apply exported_inv in Eexp as (flat & d & Hflat & _ & ->).
    rewrite <- (assoc_L (∪)).
    apply lookup_union_Some_l. by eapply flatten_layers_weight.
  - destruct Hrun as (junk & -> & _).
    revert Eexp. unfold exported, flatten_linear_layers.
    destruct (super_update_state_dict m ∅ prefix) as [d|e']; cbn.
    + rewrite Ha. cbn. by destruct (Linear.bias (lm_head m)).
    + by intros [= ->].
Qed.

(** X12: whatever the layout of the [lm_head] weight in the model, its
    checkpoint entry [lm_head.weight] has the output (vocabulary) dimension
    first: shape vocabulary size by input size, with the elements as they
    are for an output-first weight and transposed for an input-first one,
    as many as the shape spans.  The export raises only where the export
    of the fields does. *)
Theorem exported_weight_is_output_first m l prefix h sd :
  h !! l = Some sd ->
  Linear.wf (lm_head m) ->
  match update_state_dict m l prefix h with
  | (Ok _, h1) =>
      exists a,
        h1 !! l ≫= (fun d => d !! param_key (apply_prefix prefix (Some "lm_head")) "weight") = Some a
        /\ shape a = [size (Linear.Out (lm_head m)); size (Linear.In (lm_head m))]
        /\ data a
           = (if decide (axes (Linear.weight (lm_head m))
                         = [Linear.Out (lm_head m); Linear.In (lm_head m)])
              then values (Linear.weight (lm_head m))
              else transpose (Z.to_nat (size (Linear.In (lm_head m))))
                     (Z.to_nat (size (Linear.Out (lm_head m))))
                     (values (Linear.weight (lm_head m))))
        /\ ndarray_wf a
  | (Raise e, _) => super_update_state_dict m ∅ prefix = Raise e
  end.
Proof.
  intros Hl (Hlay & Hwf & _).
  pose proof (flatten_weight_out_first _ Hlay) as Ha.
  pose proof (update_state_dict_weight_entry m l prefix h sd _ Hl Ha) as Hent.
  destruct (update_state_dict m l prefix h) as [[l'|e] h1]; [|done].
  eexists. split; [exact Hent|]. cbn [shape data].
  split; [done|]. split; [done|].
  unfold NamedArray_wf, ndarray_wf in *. cbn [shape data] in *.
  rewrite numel_two.
  destruct (decide (axes (Linear.weight (lm_head m)) = _)) as [E|NE].
  - cbn in Hwf. rewrite E in Hwf. cbn [fmap list_fmap] in Hwf.
    by rewrite numel_two in Hwf.
  - destruct Hlay as [?|Hi]; [done|]. unfold Linear.in_first in Hi.
    cbn in Hwf. rewrite Hi in Hwf. cbn [fmap list_fmap] in Hwf.
    rewrite numel_two in Hwf.
    rewrite length_transpose by done. lia.
Qed.

(** X13: [from_state_dict] on a dictionary without the [lm_head] weight
    raises the [KeyError] of that key before any field is read; the store
    has gained the copy and the dictionary is as before. *)
Theorem from_state_dict_missing_weight self l prefix h sd :
  h !! l = Some sd ->
  sd !! param_key (apply_prefix prefix (Some "lm_head")) "weight" = None ->
  from_state_dict self l prefix h
  = (Raise (KeyError (param_key (apply_prefix prefix (Some "lm_head")) "weight")),
     h ++ [sd]).
Proof.
  intros Hl Hk. rewrite (from_state_dict_run _ _ _ _ _ Hl).
  unfold unflatten_linear_layers, lookup_key. by rewrite Hk.
Qed.

(** X14: [from_state_dict] on a dictionary whose [lm_head] weight does not
    have the shape vocabulary size by input size raises a [ValueError]; the
    store has gained the copy and the dictionary is as before. *)
Theorem from_state_dict_wrong_shape self l prefix h sd a :
  h !! l = Some sd ->
  sd !! param_key (apply_prefix prefix (Some "lm_head")) "weight" = Some a ->
  Linear.out_first (lm_head self) \/ Linear.in_first (lm_head self) ->
  shape a <> [size (Linear.Out (lm_head self)); size (Linear.In (lm_head self))] ->
  from_state_dict self l prefix h
  = (Raise (ValueError "shape mismatch"), h ++ [sd]).
Proof.
  intros Hl Hk Hlay Hshape. rewrite (from_state_dict_run _ _ _ _ _ Hl).
  unfold unflatten_linear_layers, lookup_key. rewrite Hk. cbn [bind].
  unfold unflatten_weight, check_shape.
  destruct (decide (axes (Linear.weight (lm_head self)) = _)) as [E|NE].
  - by rewrite decide_False.
  - destruct Hlay as [?|Hi]; [done|].
    rewrite decide_True by done. by rewrite decide_False.
Qed.

(** What [from_state_dict] returns on a dictionary that holds an [lm_head]
    weight of the right shape, for a layer without a bias. *)
Lemma from_state_dict_import self l prefix h sd a :
  h !! l = Some sd ->
  sd !! param_key (apply_prefix prefix (Some "lm_head")) "weight" = Some a ->
  Linear.out_first (lm_head self) \/ Linear.in_first (lm_head self) ->
  Linear.bias (lm_head self) = None ->
  shape a = [size (Linear.Out (lm_head self)); size (Linear.In (lm_head self))] ->
  exists d,
    from_state_dict self l prefix h =
      (bind (transformer_from_state_dict (transformer self) d
               (apply_prefix prefix (Some "model"))) (fun t =>
       bind (embedding_from_state_dict (embeddings self) d
               (apply_prefix prefix None)) (fun e =>
       Ok {| transformer := t; embeddings := e;
             lm_head :=
               {| Linear.weight :=
                    {| axes := axes (Linear.weight (lm_head self));
                       values :=
                         if decide (axes (Linear.weight (lm_head self))
                                    = [Linear.Out (lm_head self);
                                       Linear.In (lm_head self)])
                         then data a
                         else transpose
                                (Z.to_nat (size (Linear.Out (lm_head self))))
                                (Z.to_nat (size (Linear.In (lm_head self))))
                                (data a) |};
                  Linear.bias := None;
                  Linear.In := Linear.In (lm_head self);
                  Linear.Out := Linear.Out (lm_head self) |} |})),
       h ++ [d])
    /\ forall k, k <> param_key (apply_prefix prefix (Some "lm_head")) "weight" ->
                 d !! k = sd !! k.
Proof.
  intros Hl Hk Hlay Hb Hshape. rewrite (from_state_dict_run _ _ _ _ _ Hl).
  unfold unflatten_linear_layers, lookup_key. rewrite Hk, Hb. cbn [bind].
  set (K := param_key (apply_prefix prefix (Some "lm_head")) "weight") in *.
  assert (exists w,
    unflatten_weight (lm_head self) (Some true) a = Ok w
    /\ shape w = shape (array (Linear.weight (lm_head self)))
    /\ data w = (if decide (axes (Linear.weight (lm_head self))
                            = [Linear.Out (lm_head self); Linear.In (lm_head self)])
                 then data a
                 else transpose (Z.to_nat (size (Linear.Out (lm_head self))))
                        (Z.to_nat (size (Linear.In (lm_head self)))) (data a)))
    as (w & -> & Hws & Hwd).
  { unfold unflatten_weight.
    destruct (decide (axes (Linear.weight (lm_head self)) = _)) as [E|NE].
    - rewrite (check_shape_eq _ _ Hshape). exists a.
      split; [done|]. split; [|done]. unfold array. by rewrite E.
    - destruct Hlay as [?|Hi]; [done|]. unfold Linear.in_first in Hi.
      rewrite decide_True by done. rewrite (check_shape_eq _ _ Hshape).
      cbn [bind]. eexists. split; [reflexivity|].
      split; [|done]. unfold array. by rewrite Hi. }
  cbn [bind]. exists ({[K := w]} ∪ sd). split.
  - f_equal. unfold super_from_state_dict.
    rewrite field_key_transformer, field_key_embeddings, field_key_lm_head.
    fold K. unfold Linear_from_state_dict, read_into, lookup_key.
    rewrite Hb.
    rewrite (lookup_union_Some_l _ _ _ w) by apply lookup_singleton_eq.
    cbn [bind]. rewrite (check_shape_eq _ _ Hws). cbn [bind]. rewrite Hwd.
    done.
  - intros k Hne. rewrite lookup_union_r; [done|].
    by apply lookup_singleton_ne.
Qed.

(** X15: [from_state_dict] reads the [lm_head] weight in the checkpoint's
    layout, output dimension first: for a dictionary whose entry has the
    shape vocabulary size by input size, the returned [lm_head] keeps the
    axes of the model's and takes its elements from the entry, as they are
    for an output-first layer and transposed for an input-first one; the
    elements the model had are not used.  This is for a layer without a
    bias and a dictionary without an [lm_head] bias entry.  The other two
    fields are read from a dictionary that agrees with the given one on
    every other key. *)
Theorem from_state_dict_reads_output_first self l prefix h sd a :
  h !! l = Some sd ->
  sd !! param_key (apply_prefix prefix (Some "lm_head")) "weight" = Some a ->
  sd !! param_key (apply_prefix prefix (Some "lm_head")) "bias" = None ->
  Linear.out_first (lm_head self) \/ Linear.in_first (lm_head self) ->
  Linear.bias (lm_head self) = None ->
  shape a = [size (Linear.Out (lm_head self)); size (Linear.In (lm_head self))] ->
  exists d,
    from_state_dict self l prefix h =
      (bind (transformer_from_state_dict (transformer self) d
               (apply_prefix prefix (Some "model"))) (fun t =>
       bind (embedding_from_state_dict (embeddings self) d
               (apply_prefix prefix None)) (fun e =>
       Ok {| transformer := t; embeddings := e;
             lm_head :=
               {| Linear.weight :=
                    {| axes := axes (Linear.weight (lm_head self));
                       values :=
                         if decide (axes (Linear.weight (lm_head self))
                                    = [Linear.Out (lm_head self);
                                       Linear.In (lm_head self)])
                         then data a
                         else transpose
                                (Z.to_nat (size (Linear.Out (lm_head self))))
                                (Z.to_nat (size (Linear.In (lm_head self))))
                                (data a) |};
                  Linear.bias := None;
                  Linear.In := Linear.In (lm_head self);
                  Linear.Out := Linear.Out (lm_head self) |} |})),
       h ++ [d])
    /\ forall k, k <> param_key (apply_prefix prefix (Some "lm_head")) "weight" ->
                 d !! k = sd !! k.
Proof.
  intros Hl Hk _ Hlay Hb Hshape. by apply from_state_dict_import.
Qed.

(** X16: importing and then exporting gives the checkpoint entry back.  If
    [from_state_dict] returns a model for a dictionary whose [lm_head]
    weight is well-formed and of the right shape, then [update_state_dict]
    of that model, into any dictionary, files that same array under
    [lm_head.weight]. *)
Theorem import_then_export self l prefix h sd a m' h1 l' h' sd' :
  h !! l = Some sd ->
  sd !! param_key (apply_prefix prefix (Some "lm_head")) "weight" = Some a ->
  Linear.out_first (lm_head self) \/ Linear.in_first (lm_head self) ->
  Linear.bias (lm_head self) = None ->
  shape a = [size (Linear.Out (lm_head self)); size (Linear.In (lm_head self))] ->
  ndarray_wf a ->
  from_state_dict self l prefix h = (Ok m', h1) ->
  h' !! l' = Some sd' ->
  match update_state_dict m' l' prefix h' with
  | (Ok _, h2) =>
      h2 !! l' ≫= (fun d => d !! param_key (apply_prefix prefix (Some "lm_head")) "weight")
      = Some a
  | (Raise e, _) => super_update_state_dict m' ∅ prefix = Raise e
  end.
Proof.
  intros Hl Hk Hlay Hb Hshape Hwf Himp Hl'.
  destruct (from_state_dict_import self l prefix h sd a Hl Hk Hlay Hb Hshape)
    as (d & Heq & _).
  rewrite Heq in Himp.
  destruct (transformer_from_state_dict _ _ _) as [t|]; [|done].
  destruct (embedding_from_state_dict _ _ _) as [e|]; [|done].
  cbn in Himp. injection Himp as <- _.
  apply (update_state_dict_weight_entry _ l' prefix h' sd' a Hl').
  unfold ndarray_wf in Hwf. rewrite Hshape, numel_two in Hwf.
  unfold flatten_weight. cbn [lm_head Linear.weight Linear.In Linear.Out axes values].
  destruct (decide (axes (Linear.weight (lm_head self)) = _)) as [E|NE].
  - unfold array. cbn [axes values]. rewrite E. cbn [fmap list_fmap].
    rewrite <- Hshape. by destruct a.
  - destruct Hlay as [?|Hi]; [done|]. unfold Linear.in_first in Hi.
    rewrite decide_True by done.
    rewrite transpose_involutive by done.
    rewrite <- Hshape. by destruct a.
Qed.

(** The import of what was just exported, for a layer laid out like the
    exported one. *)
Lemma import_of_export m tmpl prefix h l sd (mine : StateDict) :
  h !! l = Some sd ->
  Linear.wf (lm_head m) ->
  Linear.same_layout (lm_head tmpl) (lm_head m) ->
  exported m prefix = Ok mine ->
  exists d,
    from_state_dict tmpl l prefix (<[ l := mine ∪ sd ]> h ++ [mine]) =
      (bind (transformer_from_state_dict (transformer tmpl) d
               (apply_prefix prefix (Some "model"))) (fun t =>
       bind (embedding_from_state_dict (embeddings tmpl) d
               (apply_prefix prefix None)) (fun e =>
       Ok {| transformer := t; embeddings := e; lm_head := lm_head m |})),
       (<[ l := mine ∪ sd ]> h ++ [mine]) ++ [d]).
Proof.
  intros Hl Hwf Hsame Eexp.
  apply exported_inv in Eexp as (flat & d0 & Hflat & _ & ->).
  pose proof (lookup_lt_Some _ _ _ Hl) as Hlt.
  set (sd1 := flat ∪ d0 ∪ sd).
  assert ((<[l:=sd1]> h ++ [flat ∪ d0]) !! l = Some sd1) as Hl1.
  { apply lookup_app_l_Some. by apply list_lookup_insert_eq. }
  rewrite (from_state_dict_run _ _ _ _ _ Hl1).
  assert (flat ⊆ sd1) as Hsub.
  { unfold sd1. etrans; apply map_union_subseteq_l. }
  rewrite (unflatten_flatten_layers _ _ _ _ _ _ Hwf Hsame Hflat Hsub).
  eexists. f_equal.
  unfold super_from_state_dict.
  rewrite field_key_transformer, field_key_embeddings, field_key_lm_head.
  rewrite (Linear_from_native (lm_head m)); [done..|].
  apply map_union_subseteq_l.
Qed.

(** X17: the checkpoint round trip for the models the file builds.  Let a
    model be one that [init] returned or [resize_vocab] made of such a
    model, and let [update_state_dict] have exported it into a dictionary
    that then holds no [lm_head] bias entry.  Then [from_state_dict] on
    that dictionary, run on any model whose [lm_head] is laid out alike,
    returns the [lm_head] of the exported model, the other two fields
    being what their own import reads. *)
Theorem produced_model_round_trip m tmpl prefix h l sd h1 :
  produced m ->
  Linear.same_layout (lm_head tmpl) (lm_head m) ->
  h !! l = Some sd ->
  update_state_dict m l prefix h = (Ok l, h1) ->
  h1 !! l
    ≫= (fun d => d !! param_key (apply_prefix prefix (Some "lm_head")) "bias")
  = None ->
  exists d h2,
    from_state_dict tmpl l prefix h1 =
      (bind (transformer_from_state_dict (transformer tmpl) d
               (apply_prefix prefix (Some "model"))) (fun t =>
       bind (embedding_from_state_dict (embeddings tmpl) d
               (apply_prefix prefix None)) (fun e =>
       Ok {| transformer := t; embeddings := e; lm_head := lm_head m |})),
       h2).
Proof.
  intros Hp Hsame Hl Hexp _.
  destruct (produced_inv_wf m Hp) as ((_ & Hfirst & _) & Hb & Hw & _).
  assert (Linear.wf (lm_head m)) as Hwf.
  { split; [by left|]. split; [done|]. by rewrite Hb. }
  pose proof (update_state_dict_live m l prefix h sd Hl) as Hrun.
  destruct (exported m prefix) as [mine|e] eqn:Eexp.
  - destruct Hrun as [Hrun _]. rewrite Hrun in Hexp. injection Hexp as <-.
    destruct (import_of_export m tmpl prefix h l sd mine Hl Hwf Hsame Eexp)
      as [d Hd].
    eauto.
  - destruct Hrun as (junk & Hrun & _). rewrite Hrun in Hexp. done.
Qed.
End CheckpointProperties.

(** * Concrete runs of the further properties *)

(** X5 on the tiny model. *)
Lemma init_uses_vocab_witness :
  @Vocab Small.random Small.components Small.tiny_model = Small.tiny_vocab
  /\ vocab_size Small.tiny_model = size Small.tiny_vocab
  /\ Linear.In (lm_head Small.tiny_model) = Embed Small.tiny_config
  /\ Linear.Out (lm_head Small.tiny_model) = Small.tiny_vocab
  /\ axes (LlamaEmbedding.token_embeddings (embeddings Small.tiny_model))
     = [Small.tiny_vocab; Embed Small.tiny_config]
  /\ axes (Linear.weight (lm_head Small.tiny_model))
     = axes (LlamaEmbedding.token_embeddings (embeddings Small.tiny_model))
  /\ Small.stack_init Small.tiny_config (@split Small.random 1%nat).1
     = Ok (transformer Small.tiny_model).
Proof.
  apply (@init_uses_vocab Small.random Small.components
           Small.tiny_vocab Small.tiny_config 1%nat Small.tiny_model).
  reflexivity.
Defined.

(** X6 on the tiny model resized to five words. *)
Lemma produced_models_well_formed_witness :
  Linear.wf (lm_head (@resize_vocab Small.random Small.components
                        Small.tiny_model 5 (Some 7%nat)))
  /\ Linear.bias (lm_head (@resize_vocab Small.random Small.components
                             Small.tiny_model 5 (Some 7%nat))) = None
  /\ NamedArray_wf
       (LlamaEmbedding.token_embeddings
          (embeddings (@resize_vocab Small.random Small.components
                         Small.tiny_model 5 (Some 7%nat)))).
Proof.
  apply (@produced_models_well_formed Small.random Small.components).
  exact tiny_resized_produced.
Defined.

(** X7 on the tiny model: to five words and then to two. *)
Lemma resize_vocab_twice_witness :
  axes (LlamaEmbedding.token_embeddings
          (embeddings (@resize_vocab Small.random Small.components
                         (resize_vocab Small.tiny_model 5 None) 2 None)))
  = axes (LlamaEmbedding.token_embeddings
            (embeddings (resize_vocab Small.tiny_model 2 None)))
  /\ axes (Linear.weight
             (lm_head (@resize_vocab Small.random Small.components
                         (resize_vocab Small.tiny_model 5 None) 2 None)))
     = axes (Linear.weight (lm_head (resize_vocab Small.tiny_model 2 None)))
  /\ Vocab (@resize_vocab Small.random Small.components
              (resize_vocab Small.tiny_model 5 None) 2 None)
     = Vocab (resize_vocab Small.tiny_model 2 None)
  /\ Linear.Out (lm_head (@resize_vocab Small.random Small.components
                            (resize_vocab Small.tiny_model 5 None) 2 None))
     = Linear.Out (lm_head (resize_vocab Small.tiny_model 2 None))
  /\ vocab_size (@resize_vocab Small.random Small.components
                   (resize_vocab Small.tiny_model 5 None) 2 None) = 2.
Proof.
  apply (@resize_vocab_twice Small.random Small.components
           Small.tiny_model 5 2 None None).
  exact tiny_model_inv.
Defined.

(** X8 on the tiny model. *)
Lemma resize_vocab_same_size_witness :
  @resize_vocab Small.random Small.components Small.tiny_model
    (vocab_size Small.tiny_model) (Some 7%nat)
  = Small.tiny_model.
Proof.
  apply (@resize_vocab_same_size Small.random Small.components
           Small.tiny_model (Some 7%nat)).
  - exact tiny_model_inv.
  - reflexivity.
  - reflexivity.
Defined.

(** X9 on the input-first model, whose [lm_head] has a bias. *)
Lemma resize_vocab_leaves_bias_witness :
  Linear.bias (lm_head (@resize_vocab Small.random Small.components
                          Small.in_first_model 5 None))
  = Some {| axes := [Small.tiny_vocab];
            values := Small.float_of_nat <$> [7; 8; 9]%nat |}
  /\ Linear.In (lm_head (@resize_vocab Small.random Small.components
                           Small.in_first_model 5 None))
     = Linear.In (lm_head Small.in_first_model)
  /\ ~ Linear.wf (lm_head (@resize_vocab Small.random Small.components
                             Small.in_first_model 5 None)).
Proof.
  apply (@resize_vocab_leaves_bias Small.random Small.components
           Small.in_first_model 5 None).
  - reflexivity.
  - exact in_first_model_wf.
  - reflexivity.
  - vm_compute. discriminate.
Defined.

(** X10 on the tiny model and a dictionary with an entry of its own. *)
Lemma update_state_dict_keeps_other_keys_witness :
  match @update_state_dict Small.random Small.components Small.tiny_model
          0%nat None [{[ "step" := {| shape := []; data := [1%float] |} ]}] with
  | (Ok _, h1) =>
      exists mine,
        @exported Small.random Small.components Small.tiny_model None = Ok mine
        /\ forall k : string,
             h1 !! 0%nat ≫= (fun d => d !! k)
             = match mine !! k with
               | Some v => Some v
               | None =>
                   ({[ "step" := {| shape := []; data := [1%float] |} ]}
                    : StateDict) !! k
               end
  | (Raise _, h1) =>
      h1 !! 0%nat = Some {[ "step" := {| shape := []; data := [1%float] |} ]}
  end.
Proof.
  apply (@update_state_dict_keeps_other_keys Small.random Small.components
           Small.tiny_model 0%nat None).
  reflexivity.
Defined.

Example update_keeps_step :
  snd (@update_state_dict Small.random Small.components Small.tiny_model
         0%nat None [{[ "step" := {| shape := []; data := [1%float] |} ]}])
    !! 0%nat ≫= (fun d => d !! "step")
  = Some {| shape := []; data := [1%float] |}.
Proof. vm_compute. reflexivity. Qed.

(** X11 on the tiny model and an empty dictionary. *)
Lemma update_state_dict_idempotent_witness :
  exists h2,
    @update_state_dict Small.random Small.components Small.tiny_model
      0%nat None
      (snd (@update_state_dict Small.random Small.components
              Small.tiny_model 0%nat None [∅]))
    = (Ok 0%nat, h2)
    /\ h2 !! 0%nat
       = snd (@update_state_dict Small.random Small.components
                Small.tiny_model 0%nat None [∅]) !! 0%nat.
Proof.
  apply (@update_state_dict_idempotent Small.random Small.components
           Small.tiny_model 0%nat None [∅] _ ∅).
  - reflexivity.
  - vm_compute. reflexivity.
Defined.

(** X12 on the input-first model. *)
Lemma exported_weight_is_output_first_witness :
  match @update_state_dict Small.random Small.components
          Small.in_first_model 0%nat None [∅] with
  | (Ok _, h1) =>
      exists a,
        h1 !! 0%nat
          ≫= (fun d => d !! param_key (apply_prefix None (Some "lm_head")) "weight")
        = Some a
        /\ shape a = [size (Linear.Out (lm_head Small.in_first_model));
                      size (Linear.In (lm_head Small.in_first_model))]
        /\ data a
           = (if decide (axes (Linear.weight (lm_head Small.in_first_model))
                         = [Linear.Out (lm_head Small.in_first_model);
                            Linear.In (lm_head Small.in_first_model)])
              then values (Linear.weight (lm_head Small.in_first_model))
              else transpose
                     (Z.to_nat (size (Linear.In (lm_head Small.in_first_model))))
                     (Z.to_nat (size (Linear.Out (lm_head Small.in_first_model))))
                     (values (Linear.weight (lm_head Small.in_first_model))))
        /\ ndarray_wf a
  | (Raise e, _) =>
      @super_update_state_dict Small.random Small.components
        Small.in_first_model ∅ None = Raise e
  end.
Proof.
  apply (@exported_weight_is_output_first Small.random Small.components
           Small.in_first_model 0%nat None [∅] ∅).
  - reflexivity.
  - exact in_first_model_wf.
Defined.

(** X13 on the tiny model and an empty dictionary. *)
Lemma from_state_dict_missing_weight_witness :
  @from_state_dict Small.random Small.components Small.tiny_model
    0%nat (Some "ckpt") [∅]
  = (Raise (KeyError "ckpt.lm_head.weight"), [∅; ∅]).
Proof.
  apply (@from_state_dict_missing_weight Small.random Small.components
           Small.tiny_model 0%nat (Some "ckpt") [∅] ∅).
  - reflexivity.
  - reflexivity.
Defined.

(** X14 on the tiny model and a weight stored input dimension first. *)
Lemma from_state_dict_wrong_shape_witness :
  @from_state_dict Small.random Small.components Small.tiny_model 0%nat None
    [{[ "lm_head.weight" :=
          {| shape := [2; 3];
             data := Small.float_of_nat <$> [1; 2; 3; 4; 5; 6]%nat |} ]}]
  = (Raise (ValueError "shape mismatch"),
     [{[ "lm_head.weight" :=
           {| shape := [2; 3];
              data := Small.float_of_nat <$> [1; 2; 3; 4; 5; 6]%nat |} ]}]
     ++ [{[ "lm_head.weight" :=
              {| shape := [2; 3];
                 data := Small.float_of_nat <$> [1; 2; 3; 4; 5; 6]%nat |} ]}]).
Proof.
  apply (@from_state_dict_wrong_shape Small.random Small.components
           Small.tiny_model 0%nat None _ _
           {| shape := [2; 3];
              data := Small.float_of_nat <$> [1; 2; 3; 4; 5; 6]%nat |}).
  - reflexivity.
  - reflexivity.
  - left. reflexivity.
  - vm_compute. discriminate.
Defined.

Example import_other_weight :
  fst (@from_state_dict Small.random Small.components Small.tiny_model
         0%nat None [Small.other_checkpoint])
  = Ok (@Build_MistralLMHeadModel Small.random Small.components
          (transformer Small.tiny_model) (embeddings Small.tiny_model)
          {| Linear.weight :=
               {| axes := [Small.tiny_vocab; Embed Small.tiny_config];
                  values := data Small.other_weight |};
             Linear.bias := None;
             Linear.In := Embed Small.tiny_config;
             Linear.Out := Small.tiny_vocab |}).
Proof. vm_compute. reflexivity. Qed.

(** X15 on the tiny model and a checkpoint with another weight. *)
Lemma from_state_dict_reads_output_first_witness :
  exists d,
    @from_state_dict Small.random Small.components Small.tiny_model
      0%nat None [Small.other_checkpoint] =
      (bind (@transformer_from_state_dict Small.random Small.components
               (transformer Small.tiny_model) d
               (apply_prefix None (Some "model"))) (fun t =>
       bind (@embedding_from_state_dict Small.random Small.components
               (embeddings Small.tiny_model) d
               (apply_prefix None None)) (fun e =>
       Ok (@Build_MistralLMHeadModel Small.random Small.components t e
             {| Linear.weight :=
                  {| axes := axes (Linear.weight (lm_head Small.tiny_model));
                     values :=
                       if decide (axes (Linear.weight (lm_head Small.tiny_model))
                                  = [Linear.Out (lm_head Small.tiny_model);
                                     Linear.In (lm_head Small.tiny_model)])
                       then data Small.other_weight
                       else transpose
                              (Z.to_nat (size (Linear.Out (lm_head Small.tiny_model))))
                              (Z.to_nat (size (Linear.In (lm_head Small.tiny_model))))
                              (data Small.other_weight) |};
                Linear.bias := None;
                Linear.In := Linear.In (lm_head Small.tiny_model);
                Linear.Out := Linear.Out (lm_head Small.tiny_model) |}))),
       [Small.other_checkpoint] ++ [d])
    /\ forall k, k <> param_key (apply_prefix None (Some "lm_head")) "weight" ->
                 d !! k = Small.other_checkpoint !! k.
Proof.
  apply (@from_state_dict_reads_output_first Small.random Small.components
           Small.tiny_model 0%nat None [Small.other_checkpoint]
           Small.other_checkpoint Small.other_weight).
  - reflexivity.
  - vm_compute. reflexivity.
  - vm_compute. reflexivity.
  - left. reflexivity.
  - reflexivity.
  - reflexivity.
Defined.

(** X16 on the tiny model: the other checkpoint is imported and the model
    read from it is exported into an empty dictionary. *)
Lemma import_then_export_witness :
  match @update_state_dict Small.random Small.components
          (@Build_MistralLMHeadModel Small.random Small.components
             (transformer Small.tiny_model) (embeddings Small.tiny_model)
             {| Linear.weight :=
                  {| axes := [Small.tiny_vocab; Embed Small.tiny_config];
                     values := data Small.other_weight |};
                Linear.bias := None;
                Linear.In := Embed Small.tiny_config;
                Linear.Out := Small.tiny_vocab |})
          0%nat None [∅] with
  | (Ok _, h2) =>
      h2 !! 0%nat
        ≫= (fun d => d !! param_key (apply_prefix None (Some "lm_head")) "weight")
      = Some Small.other_weight
  | (Raise e, _) =>
      @super_update_state_dict Small.random Small.components
        (@Build_MistralLMHeadModel Small.random Small.components
           (transformer Small.tiny_model) (embeddings Small.tiny_model)
           {| Linear.weight :=
                {| axes := [Small.tiny_vocab; Embed Small.tiny_config];
                   values := data Small.other_weight |};
              Linear.bias := None;
              Linear.In := Embed Small.tiny_config;
              Linear.Out := Small.tiny_vocab |})
        ∅ None = Raise e
  end.
Proof.
  apply (@import_then_export Small.random Small.components
           Small.tiny_model 0%nat None [Small.other_checkpoint]
           Small.other_checkpoint Small.other_weight _
           (snd (@from_state_dict Small.random Small.components
                   Small.tiny_model 0%nat None [Small.other_checkpoint]))
           0%nat [∅] ∅).
  - reflexivity.
  - vm_compute. reflexivity.
  - left. reflexivity.
  - reflexivity.
  - reflexivity.
  - reflexivity.
  - vm_compute. reflexivity.
  - reflexivity.
Defined.

(** X17 on the tiny model resized to five words, read into the same model
    shrunk to one word and grown to five. *)
Lemma produced_model_round_trip_witness :
  exists d h2,
    @from_state_dict Small.random Small.components
      (resize_vocab (resize_vocab Small.tiny_model 1 None) 5 None)
      0%nat None
      (snd (@update_state_dict Small.random Small.components
              (resize_vocab Small.tiny_model 5 (Some 7%nat)) 0%nat None [∅]))
    = (bind (@transformer_from_state_dict Small.random Small.components
               (transformer
                  (resize_vocab (resize_vocab Small.tiny_model 1 None) 5 None))
               d (apply_prefix None (Some "model"))) (fun t =>
       bind (@embedding_from_state_dict Small.random Small.components
               (embeddings
                  (resize_vocab (resize_vocab Small.tiny_model 1 None) 5 None))
               d (apply_prefix None None)) (fun e =>
       Ok (@Build_MistralLMHeadModel Small.random Small.components t e
             (lm_head (resize_vocab Small.tiny_model 5 (Some 7%nat)))))),
       h2).
Proof.
  apply (@produced_model_round_trip Small.random Small.components
           (resize_vocab Small.tiny_model 5 (Some 7%nat))
           (resize_vocab (resize_vocab Small.tiny_model 1 None) 5 None)
           None [∅] 0%nat ∅).
  - exact tiny_resized_produced.
  - repeat split.
  - reflexivity.
  - vm_compute. reflexivity.
  - vm_compute. reflexivity.
Defined.

Example resized_round_trip :
  fst (@from_state_dict Small.random Small.components
         (resize_vocab Small.tiny_model 5 (Some 7%nat)) 0%nat None
         (snd (@update_state_dict Small.random Small.components
                 (resize_vocab Small.tiny_model 5 (Some 7%nat))
                 0%nat None [∅])))
  = Ok (resize_vocab Small.tiny_model 5 (Some 7%nat)).
Proof. vm_compute. reflexivity. Qed.

(** * The configuration as its constructor accepts it *)

Example ten_over_three_accepted : LlamaConfig_post_init ten_over_three = Ok tt.
Proof. reflexivity. Qed.

Example post_init_rejects :
  LlamaConfig_post_init
    {| seq_len := 4; hidden_dim := 6; intermediate_dim := 4; num_layers := 1;
       num_heads := 3; num_kv_heads := 2; activation_function := "silu";
       initializer_range := 0%float; layer_norm_epsilon := 0%float;
       sliding_window := 4; upcast_attn := false; use_flash_attention := false;
       flash_attention_block_size := None; gradient_checkpointing := true;
       gradient_checkpointing_block_size := 5; use_bias := false;
       rope_scaling := None |}
  = Raise (AssertionError "num_heads not divisible by num_kv_heads").
Proof. reflexivity. Qed.




(** X2: an override named like one of the eleven keywords [to_hf_config]
    passes itself (the ten fields of the configuration and the vocabulary
    size) makes the call raise a [TypeError] that names such a keyword, so
    no override can replace a field of the configuration or the vocabulary
    size. *)
Theorem to_hf_config_rejects_duplicates (c : MistralConfig) (vocab_size : Z)
    (overrides : gmap string pyvalue) (k : string) :
  k ∈ explicit_keywords ->
  is_Some (overrides !! k) ->
  exists k',
    to_hf_config c vocab_size (Some overrides) = Raise (TypeError k')
    /\ k' ∈ explicit_keywords
    /\ is_Some (overrides !! k').
Proof.
  intros Hk [v Hv]. unfold to_hf_config.
  destruct (duplicate_keyword overrides) as [k'|] eqn:Hd.
  - exists k'. split; [done|]. by apply duplicate_keyword_Some.
  - apply duplicate_keyword_None in Hd.
    rewrite Forall_forall in Hd. rewrite (Hd k Hk) in Hv. done.
Qed.

Lemma to_hf_config_rejects_duplicates_witness :
  exists k',
    to_hf_config default_config 32000
      (Some {[ "vocab_size" := PyInt 5; "rope_theta" := PyFloat 1%float ]})
    = Raise (TypeError k')
    /\ k' ∈ explicit_keywords
    /\ is_Some (({[ "vocab_size" := PyInt 5; "rope_theta" := PyFloat 1%float ]}
                 : gmap string pyvalue) !! k').
Proof.
  apply (to_hf_config_rejects_duplicates default_config 32000 _ "vocab_size").
  - unfold explicit_keywords. set_solver.
  - vm_compute. eauto.
Defined.

(** * Resizing, with the elements *)

Section ResizeTensors.
Context `{LlamaComponents}.
Implicit Types (m : MistralLMHeadModel).

Lemma resize_axis_second (x : NamedArray) (a i v : Axis) (n : Z)
    (key : option PRNGKey) :
  axes x = [i; v] -> name i <> name a -> name v = name a ->
  axes (resize_axis x a n key) = [i; resize v n].
Proof.
  intros Hx Hi Hv. unfold resize_axis. rewrite Hx. cbn [split_at_name].
  rewrite decide_False by done. by rewrite decide_True.
Qed.

Lemma wf_length_two (x : NamedArray) (a b : Axis) :
  NamedArray_wf x -> axes x = [a; b] ->
  length (values x) = (Z.to_nat (size a) * Z.to_nat (size b))%nat.
Proof.
  unfold NamedArray_wf, ndarray_wf, array. cbn [shape data].
  intros Hwf Hx. rewrite Hx in Hwf. cbn [fmap list_fmap] in Hwf.
  by rewrite numel_two in Hwf.
Qed.

(** C4: let a model have the vocabulary axis of its embedding table as the
    output axis of [lm_head], the table laid out vocabulary first, the
    [lm_head] weight laid out over its two axes in either order, and both
    holding as many elements as their axes span.  For every new size that
    is not negative, [resize_vocab] returns a model whose table and
    [lm_head] weight have the new size on the vocabulary axis, under its
    old name, and their other axis as before, and which hold as many
    elements as the new axes span; [Vocab], the output axis of [lm_head]
    and [vocab_size] follow, and the input axis is kept. *)
Theorem resize_vocab_resizes_tensors m (new_size : Z) (key : option PRNGKey)
    (E : Axis) :
  Linear.Out (lm_head m) = Vocab m ->
  Linear.out_first (lm_head m)
  \/ (Linear.in_first (lm_head m)
      /\ name (Linear.In (lm_head m)) <> name (Vocab m)) ->
  axes (LlamaEmbedding.token_embeddings (embeddings m)) = [Vocab m; E] ->
  NamedArray_wf (Linear.weight (lm_head m)) ->
  NamedArray_wf (LlamaEmbedding.token_embeddings (embeddings m)) ->
  0 <= new_size ->
  axes (LlamaEmbedding.token_embeddings (embeddings (resize_vocab m new_size key)))
  = [{| name := name (Vocab m); size := new_size |}; E]
  /\ length (values (LlamaEmbedding.token_embeddings
                       (embeddings (resize_vocab m new_size key))))
     = (Z.to_nat new_size * Z.to_nat (size E))%nat
  /\ axes (Linear.weight (lm_head (resize_vocab m new_size key)))
     = (if decide (axes (Linear.weight (lm_head m))
                   = [Linear.Out (lm_head m); Linear.In (lm_head m)])
        then [{| name := name (Vocab m); size := new_size |};
              Linear.In (lm_head m)]
        else [Linear.In (lm_head m);
              {| name := name (Vocab m); size := new_size |}])
  /\ length (values (Linear.weight (lm_head (resize_vocab m new_size key))))
     = (Z.to_nat new_size * Z.to_nat (size (Linear.In (lm_head m))))%nat
  /\ Vocab (resize_vocab m new_size key)
     = {| name := name (Vocab m); size := new_size |}
  /\ Linear.Out (lm_head (resize_vocab m new_size key))
     = {| name := name (Vocab m); size := new_size |}
  /\ Linear.In (lm_head (resize_vocab m new_size key)) = Linear.In (lm_head m)
  /\ vocab_size (resize_vocab m new_size key) = new_size.
Proof.
  intros HOut Hlay HE Hw He _.
  destruct (resize_vocab_wf m new_size key He Hw) as [He' Hw'].
  destruct (resize_vocab_fields m new_size key)
    as (_ & HV & HO & HI & _ & Hwt & Htab).
  assert (axes (LlamaEmbedding.token_embeddings
                  (embeddings (resize_vocab m new_size key)))
          = [resize (Vocab m) new_size; E]) as Haxe.
  { rewrite Htab. by apply resize_axis_first. }
  assert (axes (Linear.weight (lm_head (resize_vocab m new_size key)))
          = (if decide (axes (Linear.weight (lm_head m))
                        = [Linear.Out (lm_head m); Linear.In (lm_head m)])
             then [resize (Vocab m) new_size; Linear.In (lm_head m)]
             else [Linear.In (lm_head m); resize (Vocab m) new_size]))
    as Haxw.
  { rewrite Hwt.
    destruct (decide (axes (Linear.weight (lm_head m)) = _)) as [Ho|Hno].
    - rewrite HOut in Ho. by apply resize_axis_first.
    - destruct Hlay as [?|[Hi Hne]]; [done|].
      unfold Linear.in_first in Hi. rewrite HOut in Hi.
      by apply resize_axis_second. }
  split; [exact Haxe|].
  split; [by rewrite (wf_length_two _ _ _ He' Haxe)|].
  split; [exact Haxw|].
  split.
  { destruct (decide (axes (Linear.weight (lm_head m)) = _)).
    - by rewrite (wf_length_two _ _ _ Hw' Haxw).
    - rewrite (wf_length_two _ _ _ Hw' Haxw). cbn. lia. }
  unfold vocab_size, Vocab in *. rewrite HV, HO, HI. done.
Qed.
End ResizeTensors.

(** C4 on the input-first model, resized from three words to five. *)
Lemma resize_vocab_resizes_tensors_witness :
  axes (LlamaEmbedding.token_embeddings
          (embeddings (@resize_vocab Small.random Small.components
                         Small.in_first_model 5 None)))
  = [{| name := name (Vocab Small.in_first_model); size := 5 |};
     Embed Small.tiny_config]
  /\ length (values (LlamaEmbedding.token_embeddings
                       (embeddings (@resize_vocab Small.random Small.components
                                      Small.in_first_model 5 None))))
     = (Z.to_nat 5 * Z.to_nat (size (Embed Small.tiny_config)))%nat
  /\ axes (Linear.weight (lm_head (@resize_vocab Small.random Small.components
                                     Small.in_first_model 5 None)))
     = (if decide (axes (Linear.weight (lm_head Small.in_first_model))
                   = [Linear.Out (lm_head Small.in_first_model);
                      Linear.In (lm_head Small.in_first_model)])
        then [{| name := name (Vocab Small.in_first_model); size := 5 |};
              Linear.In (lm_head Small.in_first_model)]
        else [Linear.In (lm_head Small.in_first_model);
              {| name := name (Vocab Small.in_first_model); size := 5 |}])
  /\ length (values (Linear.weight
                       (lm_head (@resize_vocab Small.random Small.components
                                   Small.in_first_model 5 None))))
     = (Z.to_nat 5
        * Z.to_nat (size (Linear.In (lm_head Small.in_first_model))))%nat
  /\ Vocab (@resize_vocab Small.random Small.components
              Small.in_first_model 5 None)
     = {| name := name (Vocab Small.in_first_model); size := 5 |}
  /\ Linear.Out (lm_head (@resize_vocab Small.random Small.components
                            Small.in_first_model 5 None))
     = {| name := name (Vocab Small.in_first_model); size := 5 |}
  /\ Linear.In (lm_head (@resize_vocab Small.random Small.components
                           Small.in_first_model 5 None))
     = Linear.In (lm_head Small.in_first_model)
  /\ vocab_size (@resize_vocab Small.random Small.components
                   Small.in_first_model 5 None) = 5.
Proof.
  apply (@resize_vocab_resizes_tensors Small.random Small.components
           Small.in_first_model 5 None (Embed Small.tiny_config)).
  - reflexivity.
  - right. split; [reflexivity|]. vm_compute. discriminate.
  - reflexivity.
  - reflexivity.
  - reflexivity.
  - vm_compute. discriminate.
Defined.

Example resize_in_first_grows :
  Linear.weight (lm_head (@resize_vocab Small.random Small.components
                            Small.in_first_model 5 None))
  = {| axes := [{| name := "embed"; size := 2 |};
                {| name := "vocab"; size := 5 |}];
       values := (Small.float_of_nat <$> [1; 2; 3]%nat) ++ [0; 0]%float
                 ++ (Small.float_of_nat <$> [4; 5; 6]%nat) ++ [0; 0]%float |}.
Proof. vm_compute. reflexivity. Qed.

(** * Every operation and the store *)

Section Operations.
Context `{ForwardKernels}.
Implicit Types (self : MistralLMHeadModel) (h : heap) (l : loc)
  (prefix : option string).

(** C7, as the code has it.  Every operation of the file other than
    [update_state_dict] (the two config translations, the forward call,
    [resize_vocab] and [from_state_dict]) leaves every dictionary alive
    as it was, the one it is handed included, and what it returns is fixed
    by its arguments and the entries of that dictionary.
    [update_state_dict] writes into the dictionary it is handed: the
    exported entries go over the ones it had, no other dictionary alive
    changes, and the same dictionary is returned; when it raises, the
    dictionary is as it was. *)
Theorem every_operation_but_update (op : operation) self l prefix h :
  is_update op = false ->
  (exists rest, snd (perform op h) = h ++ rest)
  /\ (forall h', same_argument op h' h ->
        fst (perform op h') = fst (perform op h))
  /\ match update_state_dict self l prefix h with
     | (Ok l', h1) =>
         l' = l
         /\ exists mine,
              exported self prefix = Ok mine
              /\ take (length h) h1 = alter (fun sd => mine ∪ sd) l h
     | (Raise _, h1) => take (length h) h1 = h
     end.
Proof.
  intros Hop.
  destruct (operations_and_their_arguments self l prefix h) as (_ & _ & Hupd).
  split; [|split; [|exact Hupd]].
  - destruct op as [hf|c v o|m ids mask key|m n key|m l0 p|m l0 p];
      try discriminate Hop; cbn [perform];
      try (exists []; by rewrite app_nil_r).
    by destruct (operations_and_their_arguments m l0 p h) as (Hkeep & _).
  - intros h'.
    destruct op as [hf|c v o|m ids mask key|m n key|m l0 p|m l0 p];
      try discriminate Hop; cbn [perform]; try done.
    unfold same_argument. cbn [state_dict_of].
    destruct (operations_and_their_arguments m l0 p h) as (_ & Hdet & _).
    apply Hdet.
Qed.
End Operations.

(** C7 on the tiny model: [from_state_dict] on a store holding the
    checkpoint of the model, and [update_state_dict] into it. *)
Lemma every_operation_but_update_witness :
  (exists rest,
     snd (@perform Small.random Small.components Small.kernels
            (call_from_state_dict Small.tiny_model 0%nat None)
            [Small.tiny_checkpoint])
     = [Small.tiny_checkpoint] ++ rest)
  /\ (forall h',
        @same_argument Small.random Small.components Small.kernels
          (call_from_state_dict Small.tiny_model 0%nat None)
          h' [Small.tiny_checkpoint] ->
        fst (@perform Small.random Small.components Small.kernels
               (call_from_state_dict Small.tiny_model 0%nat None) h')
        = fst (@perform Small.random Small.components Small.kernels
                 (call_from_state_dict Small.tiny_model 0%nat None)
                 [Small.tiny_checkpoint]))
  /\ match @update_state_dict Small.random Small.components
             Small.tiny_model 0%nat None [Small.tiny_checkpoint] with
     | (Ok l', h1) =>
         l' = 0%nat
         /\ exists mine,
              @exported Small.random Small.components Small.tiny_model None
              = Ok mine
              /\ take (length ([Small.tiny_checkpoint] : heap)) h1
                 = alter (fun sd => mine ∪ sd) 0%nat [Small.tiny_checkpoint]
     | (Raise _, h1) =>
         take (length ([Small.tiny_checkpoint] : heap)) h1
         = [Small.tiny_checkpoint]
     end.
Proof.
  apply (@every_operation_but_update Small.random Small.components
           Small.kernels
           (call_from_state_dict Small.tiny_model 0%nat None)
           Small.tiny_model 0%nat None [Small.tiny_checkpoint]).
  reflexivity.
Defined.

Example forward_call_tiny :
  @perform Small.random Small.components Small.kernels
    (call_forward Small.tiny_model
       {| axes := []; values := [] |} None (Some 7%nat))
    [Small.tiny_checkpoint]
  = (Ok (Linear.weight (lm_head Small.tiny_model)), [Small.tiny_checkpoint]).
Proof. reflexivity. Qed.
